(** * K-fold index partitioning: a model of [preprocessy/resampling/_kfold.py]

    The development embeds the [KFold] class of the resampling package:
    the validating constructor, the [split] generator together with the
    private mask generator it drives, and the [get_n_splits] accessor.

    Python values are kept dynamically typed ([pyval]), exceptions are an
    explicit [result], and the two pieces of mutable state a method can
    touch (the object's attributes and numpy's process-wide random
    generator) are threaded explicitly through every method. *)

From Stdlib Require Import ZArith Lia.
From stdpp Require Import base list strings sorting.

#[local] Set Warnings "-clear-no-such-hyp".

(** ** Python values and exceptions *)

(** The values the constructor can meaningfully be called with: [None],
    booleans, (unbounded) integers and strings. *)
Inductive pyval : Type :=
  | PyNone
  | PyBool (b : bool)
  | PyInt (z : Z)
  | PyStr (s : string).

Inductive exn : Type :=
  | ValueError
  | TypeError
  | ZeroDivisionError
  | IndexError.

(** Outcome of a fallible computation: a value, or the exception raised. *)
Inductive result (A : Type) : Type :=
  | Ok (a : A)
  | Raise (e : exn).
Arguments Ok {A} a.
Arguments Raise {A} e.

#[global] Instance result_ret : MRet result := λ A a, Ok a.
#[global] Instance result_bind : MBind result := λ A B f m,
  match m with
  | Ok a => f a
  | Raise e => Raise e
  end.

#[global] Instance pyval_eq_dec : EqDecision pyval.
Proof. solve_decision. Defined.
#[global] Instance exn_eq_dec : EqDecision exn.
Proof. solve_decision. Defined.

(** [isinstance(v, numbers.Integral)]: [bool] is a subclass of [int]. *)
Definition isinstance_Integral (v : pyval) : bool :=
  match v with
  | PyBool _ | PyInt _ => true
  | PyNone | PyStr _ => false
  end.

(** [isinstance(v, bool)]. *)
Definition isinstance_bool (v : pyval) : bool :=
  match v with
  | PyBool _ => true
  | _ => false
  end.

(** [v is None]. *)
Definition is_None (v : pyval) : bool :=
  match v with
  | PyNone => true
  | _ => false
  end.

(** The integer an integral value stands for ([operator.index]); any
    other value used where an integer is needed raises [TypeError]. *)
Definition int_of (v : pyval) : result Z :=
  match v with
  | PyInt z => Ok z
  | PyBool b => Ok (Z.b2z b)
  | PyNone | PyStr _ => Raise TypeError
  end.

(** Truth value of [v] in a condition ([if v:], [not v]). *)
Definition truthy (v : pyval) : bool :=
  match v with
  | PyNone => false
  | PyBool b => b
  | PyInt z => negb (z =? 0)%Z
  | PyStr s => negb (bool_decide (s = EmptyString))
  end.

(** ** External collaborators *)

(** [num_of_samples] from the package's [utils]: the number of rows of a
    dataset-like input. *)
Class Samples (D : Type) := num_of_samples : D → nat.

(** numpy's legacy global generator, as far as [KFold] uses it.
    [rng_state] is the process-wide random state; [init_by_int s] is the
    state [np.random.seed(s)] installs for an integer [s], which depends
    on [s] alone; [init_by_entropy] is the reseeding [np.random.seed(None)]
    performs from the operating system; [draw_permutation n] is
    [np.random.permutation(n)], which reads and advances the state.
    Which integers the generator takes as a seed is not left to the
    interface: the range check is written out in [seed_by_index] below. *)
Class NumpyRandom := {
  rng_state : Type;
  init_by_int : Z → rng_state;
  init_by_entropy : rng_state → rng_state;
  draw_permutation : nat → rng_state → list nat * rng_state;
}.

(** The one property of the generator the development relies on:
    [np.random.permutation(n)] returns a rearrangement of [arange(n)]. *)
Class NumpyRandomSpec (R : NumpyRandom) :=
  draw_permutation_perm :
    ∀ n g, (draw_permutation n g).1 ≡ₚ seq 0 n.

(** ** The [KFold] object *)

(** The three attributes [__init__] assigns; they hold whatever objects the
    caller passed. *)
Record KFold : Type := {
  n_splits : pyval;
  shuffle : pyval;
  random_state : pyval;
}.

#[global] Instance KFold_eq_dec : EqDecision KFold.
Proof. solve_decision. Defined.

(** [KFold.__init__]: five guards in source order, then the three
    assignments.  A raise leaves no object behind. *)
Definition __init__ (n_splits shuffle random_state : pyval) : result KFold :=
  if negb (isinstance_Integral n_splits) then Raise ValueError else
  k ← int_of n_splits;
  if (k <=? 1)%Z then Raise ValueError else
  if negb (isinstance_bool shuffle) then Raise ValueError else
  if negb (isinstance_Integral random_state) then Raise ValueError else
  if negb (truthy shuffle) && negb (is_None random_state) then Raise ValueError else
  Ok {| n_splits := n_splits; shuffle := shuffle; random_state := random_state |}.

(** ** numpy array operations used by the generators *)

(** [a[start:stop]] for non-negative bounds. *)
Definition slice {A} (a : list A) (start stop : nat) : list A :=
  drop start (take stop a).

(** [mask[idx] = True] for an integer index array [idx]; an index outside
    the mask raises [IndexError]. *)
Fixpoint mask_assign (mask : list bool) (idx : list nat) : result (list bool) :=
  match idx with
  | [] => Ok mask
  | i :: idx' =>
      if decide (i < length mask)
      then mask_assign (<[i:=true]> mask) idx'
      else Raise IndexError
  end.

(** [a[mask]] for a boolean mask: the entries of [a] at the positions where
    the mask is set, in order; shapes must agree. *)
Fixpoint bool_index {A} (a : list A) (mask : list bool) : result (list A) :=
  match a, mask with
  | [], [] => Ok []
  | x :: a', b :: mask' =>
      r ← bool_index a' mask';
      Ok (if b then x :: r else r)
  | _, _ => Raise IndexError
  end.

(** Lines 128-131: [np.full(n_splits, n_samples // n_splits)] followed by
    the in-place [+= 1] on the first [n_samples % n_splits] entries.
    The quotient is computed first and raises on a zero divisor; [np.full]
    then refuses a boolean as array length and a negative length. *)
Definition fold_sizes (n_splits : pyval) (n_samples : nat) : result (list nat) :=
  k ← int_of n_splits;
  if (k =? 0)%Z then Raise ZeroDivisionError else
  if isinstance_bool n_splits then Raise TypeError else
  if (k <? 0)%Z then Raise ValueError else
  let fold_sizes := replicate (Z.to_nat k) (Z.to_nat (Z.of_nat n_samples `div` k)%Z) in
  let r := Z.to_nat (Z.of_nat n_samples `mod` k)%Z in
  Ok ((S <$> take r fold_sizes) ++ drop r fold_sizes).

(** ** Process state, methods and generators *)

Section methods.
Context {D : Type} `{Samples D} `{R : NumpyRandom}.

(** What a method call can read and write: the attributes of [self] and
    the global random state. *)
Record process : Type := {
  this : KFold;
  np_random : rng_state;
}.

Definition set_np_random (g : rng_state) (p : process) : process :=
  {| this := this p; np_random := g |}.

(** A method: runs in a process, returns or raises, leaves a process. *)
Definition method (A : Type) : Type := process → result A * process.

(** A generator run to exhaustion: the items yielded, in order, and the
    exception that ended the iteration, if any. *)
Definition generator (A : Type) : Type :=
  process → (list A * option exn) * process.

(** Seeding with the integer [idx]: numpy takes the seeds of the unsigned
    32-bit range and raises [ValueError] on any other, leaving the state
    as it is. *)
Definition seed_by_index (idx : Z) : method () := λ p,
  if (2 ^ 32 - 1 <? idx)%Z || (idx <? 0)%Z
  then (Raise ValueError, p)
  else (Ok (), set_np_random (init_by_int idx) p).

(** [np.random.seed(seed)]. *)
Definition np_random_seed (seed : pyval) : method () := λ p,
  match seed with
  | PyNone => (Ok (), set_np_random (init_by_entropy (np_random p)) p)
  | PyInt z => seed_by_index z p
  | PyBool b => seed_by_index (Z.b2z b) p
  | PyStr _ => (Raise TypeError, p)
  end.

(** [np.random.permutation(n)]. *)
Definition np_random_permutation (n : nat) : method (list nat) := λ p,
  let '(perm, g) := draw_permutation n (np_random p) in
  (Ok perm, set_np_random g p).

(** Lines 122-126: the base order of the sample positions. *)
Definition base_order (n_samples : nat) : method (list nat) := λ p,
  if truthy (shuffle (this p)) then
    match np_random_seed (random_state (this p)) p with
    | (Ok _, p1) => np_random_permutation n_samples p1
    | (Raise e, p1) => (Raise e, p1)
    end
  else (Ok (seq 0 n_samples), p).

(** Lines 132-138: the loop over [fold_sizes]; one mask is yielded per
    fold, [current] carries over. *)
Fixpoint iter_folds (n_samples : nat) (indices : list nat)
    (fold_sizes : list nat) (current : nat) : list (list bool) * option exn :=
  match fold_sizes with
  | [] => ([], None)
  | fold_size :: rest =>
      let start := current in
      let stop := current + fold_size in
      match mask_assign (replicate n_samples false) (slice indices start stop) with
      | Raise e => ([], Some e)
      | Ok mask =>
          let '(masks, e) := iter_folds n_samples indices rest stop in
          (mask :: masks, e)
      end
  end.

(** [KFold.__iter_test_indices]. *)
Definition __iter_test_indices (n_samples : nat) : generator (list bool) := λ p,
  match base_order n_samples p with
  | (Raise e, p1) => (([], Some e), p1)
  | (Ok indices, p1) =>
      match fold_sizes (n_splits (this p1)) n_samples with
      | Raise e => (([], Some e), p1)
      | Ok sizes => (iter_folds n_samples indices sizes 0, p1)
      end
  end.

(** A [for] loop over the items of an exhausted generator whose body
    yields one item per round: it stops at the first raise of the body,
    and otherwise ends the way the consumed generator ended. *)
Fixpoint for_yield {A B} (body : A → result B) (items : list A)
    (ending : option exn) : list B * option exn :=
  match items with
  | [] => ([], ending)
  | x :: items' =>
      match body x with
      | Raise e => ([], Some e)
      | Ok y =>
          let '(ys, e) := for_yield body items' ending in
          (y :: ys, e)
      end
  end.

(** Lines 104-106: the body of the loop in [split]. *)
Definition split_body (indices : list nat) (test_indices : list bool)
    : result (list nat * list nat) :=
  train_indices ← bool_index indices (negb <$> test_indices);
  test_indices ← bool_index indices test_indices;
  Ok (train_indices, test_indices).

(** [KFold.split]; the label argument [y] is never read. *)
Definition split (X : D) : generator (list nat * list nat) := λ p,
  let n_samples := num_of_samples X in
  match int_of (n_splits (this p)) with
  | Raise e => (([], Some e), p)
  | Ok k =>
      if (Z.of_nat n_samples <? k)%Z then (([], Some ValueError), p) else
      let indices := seq 0 n_samples in
      let '((masks, ending), p1) := __iter_test_indices n_samples p in
      (for_yield (split_body indices) masks ending, p1)
  end.

(** [KFold.get_n_splits]. *)
Definition get_n_splits : method pyval := λ p,
  (Ok (n_splits (this p)), p).

End methods.

(** ** Reference description of the folds *)

(** The consecutive chunks of [indices] with the given lengths, starting at
    position [current]. *)
Fixpoint chunks (indices : list nat) (sizes : list nat) (current : nat)
    : list (list nat) :=
  match sizes with
  | [] => []
  | size :: rest =>
      slice indices current (current + size) :: chunks indices rest (current + size)
  end.

(** The (train, test) pair a chunk stands for: the positions of [0, n)
    outside and inside the chunk, both in ascending order. *)
Definition fold_pair (n : nat) (chunk : list nat) : list nat * list nat :=
  (filter (λ i, i ∉ chunk) (seq 0 n), filter (λ i, i ∈ chunk) (seq 0 n)).

(** The fold size plan in closed form. *)
Definition size_plan (k n : nat) : list nat :=
  replicate (n mod k) (S (n / k)) ++ replicate (k - n mod k) (n / k).

(** How many of the yielded pairs hold [i] among their test, respectively
    train, indices. *)
Definition test_count (i : nat) (pairs : list (list nat * list nat)) : nat :=
  length (filter (λ pr, i ∈ pr.2) pairs).
Definition train_count (i : nat) (pairs : list (list nat * list nat)) : nat :=
  length (filter (λ pr, i ∈ pr.1) pairs).

(** Strictly ascending sequences of positions. *)
Definition ascending (l : list nat) : Prop := StronglySorted lt l.

(** A partitioner that came out of the constructor. *)
Definition constructed (self : KFold) : Prop :=
  ∃ a b c, __init__ a b c = Ok self.

(** A partitioner whose attributes hold a documented configuration: an
    integer fold count of at least 2, a boolean shuffle flag, and a seed
    that is [None] or an integer. *)
Definition configured (self : KFold) : Prop :=
  ∃ (k : Z) (b : bool),
    n_splits self = PyInt k ∧ (2 ≤ k)%Z ∧ shuffle self = PyBool b ∧
    (random_state self = PyNone ∨ isinstance_Integral (random_state self) = true).

(** The seeds [np.random.seed] takes without raising. *)
Definition seed_accepted (seed : pyval) : bool :=
  match seed with
  | PyNone | PyBool _ => true
  | PyInt z => (0 <=? z)%Z && (z <=? 2 ^ 32 - 1)%Z
  | PyStr _ => false
  end.

(** A partitioner whose seed will do for the way it is set to run: the seed
    is only ever looked at when the shuffle flag is on. *)
Definition seed_usable (self : KFold) : Prop :=
  truthy (shuffle self) = true → seed_accepted (random_state self) = true.

(** The fold count of a partitioner, as a number. *)
Definition fold_count (self : KFold) (k : nat) : Prop :=
  int_of (n_splits self) = Ok (Z.of_nat k).

(** ** Reference description of the masks *)

(** The mask over [0, n) that is set exactly at the members of a chunk. *)
Definition mask_of (n : nat) (chunk : list nat) : list bool :=
  (λ i, bool_decide (i ∈ chunk)) <$> seq 0 n.

(** The number of set entries of a mask. *)
Definition selected (mask : list bool) : nat :=
  length (filter (λ b, b = true) mask).

(** The arguments the constructor lets through. *)
Definition accepted (a b c : pyval) : Prop :=
  (∃ k : Z, a = PyInt k ∧ (2 ≤ k)%Z) ∧ b = PyBool true ∧
  isinstance_Integral c = true.

(** ** Concrete collaborators for running the model *)

Module Demo.

(** Datasets as lists of rows. *)
Definition table : Type := list (list Z).
#[export] Instance table_samples : Samples table := length.

(** A toy generator: the state is a counter, and a permutation is the
    rotation of [arange(n)] by the counter. *)
#[export] Instance rotating : NumpyRandom := {|
  rng_state := nat;
  init_by_int := Z.abs_nat;
  init_by_entropy := S;
  draw_permutation := λ n g, (rotate g (seq 0 n), S g);
|}.

Definition rows (n : nat) : table := replicate n [].

Definition kfold (k : Z) (b : bool) (seed : pyval) : KFold :=
  {| n_splits := PyInt k; shuffle := PyBool b; random_state := seed |}.

Definition proc (self : KFold) (g : nat) : process :=
  {| this := self; np_random := g |}.

End Demo.

(** * Properties *)

(** ** The result monad *)

Lemma bind_Ok {A B} (f : A → result B) (m : result A) (b : B) :
  m ≫= f = Ok b ↔ ∃ a, m = Ok a ∧ f a = Ok b.
Proof.
  destruct m as [a|e]; simpl; split.
  - intros Hf. by exists a.
  - by intros (a' & [= <-] & Hf).
  - intros [=].
  - by intros (a' & [=] & _).
Qed.

(** ** Array facts *)

Lemma slice_length {A} (a : list A) (start stop : nat) :
  stop ≤ length a → length (slice a start stop) = stop - start.
Proof.
  intros Hle. unfold slice. rewrite length_drop, length_take. lia.
Qed.

Lemma slice_sublist {A} (a : list A) (start stop : nat) :
  slice a start stop `sublist_of` a.
Proof.
  unfold slice. etrans; [apply sublist_drop | apply sublist_take].
Qed.

Lemma slice_take_drop {A} (a : list A) (start size : nat) :
  slice a start (start + size) = take size (drop start a).
Proof. unfold slice. by rewrite take_drop_commute. Qed.

Lemma chunks_length (indices sizes : list nat) (current : nat) :
  length (chunks indices sizes current) = length sizes.
Proof.
  revert current. induction sizes as [|size rest IH]; intros current; simpl.
  - done.
  - by rewrite IH.
Qed.

Lemma chunks_concat (indices sizes : list nat) (current : nat) :
  mjoin (chunks indices sizes current)
  = take (sum_list sizes) (drop current indices).
Proof.
  revert current. induction sizes as [|size rest IH]; intros current; simpl.
  - done.
  - rewrite IH, slice_take_drop, <-take_take_drop, drop_drop. done.
Qed.

Lemma chunks_sizes (indices sizes : list nat) (current : nat) :
  current + sum_list sizes ≤ length indices →
  length <$> chunks indices sizes current = sizes.
Proof.
  revert current. induction sizes as [|size rest IH]; intros current; simpl.
  - done.
  - intros Hle. rewrite slice_length by lia. rewrite IH by lia.
    f_equal. lia.
Qed.

Lemma chunks_sublist (indices sizes : list nat) (current : nat) :
  Forall (λ chunk, chunk `sublist_of` indices) (chunks indices sizes current).
Proof.
  revert current. induction sizes as [|size rest IH]; intros current; simpl.
  - constructor.
  - constructor; [apply slice_sublist | apply IH].
Qed.

(** Writing [True] at in-range positions succeeds; the mask keeps its
    length and gains exactly the written positions. *)
Lemma mask_assign_Ok (mask : list bool) (idx : list nat) :
  Forall (λ i, i < length mask) idx →
  ∃ mask', mask_assign mask idx = Ok mask' ∧ length mask' = length mask ∧
    ∀ j, mask' !! j = Some true ↔ mask !! j = Some true ∨ j ∈ idx.
Proof.
  revert mask. induction idx as [|i idx IH]; intros mask Hin; simpl.
  - exists mask. split_and!; [done..|]. intros j. rewrite elem_of_nil. naive_solver.
  - apply Forall_cons in Hin as [Hi Hin].
    rewrite decide_True by done.
    destruct (IH (<[i:=true]> mask)) as (mask' & Hrun & Hlen & Hset).
    { by rewrite length_insert. }
    exists mask'. rewrite length_insert in Hlen. split_and!; [done..|].
    intros j. rewrite Hset, elem_of_cons.
    destruct (decide (i = j)) as [->|Hne].
    + rewrite list_lookup_insert_eq by done. naive_solver.
    + rewrite list_lookup_insert_ne by done. naive_solver.
Qed.

(** A successful [mask_assign] only ever happens on in-range positions. *)
Lemma mask_assign_length (mask mask' : list bool) (idx : list nat) :
  mask_assign mask idx = Ok mask' → length mask' = length mask.
Proof.
  revert mask. induction idx as [|i idx IH]; intros mask; simpl.
  - by intros [= ->].
  - case_decide; [|done]. intros Hrun%IH. by rewrite length_insert in Hrun.
Qed.

(** Boolean indexing with a mask that decides [P] position by position is
    filtering by [P]. *)
Lemma bool_index_filter {A} (P : A → Prop) `{!∀ x, Decision (P x)}
    (a : list A) (mask : list bool) :
  length mask = length a →
  (∀ j x, a !! j = Some x → (mask !! j = Some true ↔ P x)) →
  bool_index a mask = Ok (filter P a).
Proof.
  revert mask. induction a as [|x a IH]; intros [|b mask] Hlen Hdec;
    simplify_eq/=; [done|].
  rewrite (IH mask); [simpl | done | intros j y Hj; apply (Hdec (S j) y Hj)].
  f_equal. specialize (Hdec 0 x eq_refl). simpl in Hdec.
  rewrite filter_cons. destruct b; case_decide; naive_solver.
Qed.

(** Whatever the mask, indexing with it and with its negation splits the
    array into two order-preserving parts. *)
Lemma bool_index_split {A} (a t f : list A) (mask : list bool) :
  bool_index a mask = Ok t →
  bool_index a (negb <$> mask) = Ok f →
  t `sublist_of` a ∧ f `sublist_of` a ∧ t ++ f ≡ₚ a.
Proof.
  revert mask t f. induction a as [|x a IH]; intros [|b mask] t f; simpl;
    try done.
  - intros [= <-] [= <-]. split_and!; constructor.
  - intros (t' & Ht' & Ht)%bind_Ok (f' & Hf' & Hf)%bind_Ok.
    destruct (IH _ _ _ Ht' Hf') as (Hst & Hsf & Hperm).
    destruct b; simplify_eq/=.
    + split_and!; [by constructor | by constructor |]. by constructor.
    + split_and!; [by constructor | by constructor |].
      rewrite <-Permutation_middle. by constructor.
Qed.

(** ** Order and counting facts *)

Lemma ascending_seq (start n : nat) : ascending (seq start n).
Proof.
  revert start. induction n as [|n IH]; intros start; simpl.
  - constructor.
  - constructor; [apply IH|].
    apply Forall_forall. intros i Hi%elem_of_seq. lia.
Qed.

Lemma ascending_sublist (l1 l2 : list nat) :
  l1 `sublist_of` l2 → ascending l2 → ascending l1.
Proof.
  induction 1 as [|x l1 l2 Hsub IH|x l1 l2 Hsub IH]; intros Hsorted.
  - constructor.
  - apply StronglySorted_inv in Hsorted as [Hsorted Hx].
    constructor; [by apply IH|].
    apply Forall_forall. intros y Hy.
    eapply Forall_forall in Hx; [done|]. by eapply elem_of_sublist.
  - apply StronglySorted_inv in Hsorted as [Hsorted _]. by apply IH.
Qed.

Lemma filter_none {A} (P : A → Prop) `{!∀ x, Decision (P x)} (l : list A) :
  (∀ x, x ∈ l → ¬ P x) → filter P l = [].
Proof.
  induction l as [|x l IH]; intros Hnot; [done|].
  rewrite filter_cons_False by (apply Hnot; left).
  apply IH. intros y Hy. apply Hnot. by right.
Qed.

Lemma length_filter_fmap {A B} (f : A → B) (P : B → Prop)
    `{!∀ y, Decision (P y)} (l : list A) :
  length (filter P (f <$> l)) = length (filter (λ x, P (f x)) l).
Proof.
  induction l as [|x l IH]; [done|]. csimpl.
  rewrite !filter_cons. case_decide; simpl; by rewrite IH.
Qed.

Lemma length_filter_complement {A} (P : A → Prop) `{!∀ x, Decision (P x)}
    (l : list A) :
  length (filter P l) + length (filter (λ x, ¬ P x) l) = length l.
Proof. by rewrite <-length_app, filter_app_complement. Qed.

(** In a family of lists without a repeated element overall, an element
    that occurs at all occurs in exactly one member. *)
Lemma one_chunk_holds (i : nat) (family : list (list nat)) :
  NoDup (mjoin family) → i ∈ mjoin family →
  length (filter (λ chunk, i ∈ chunk) family) = 1.
Proof.
  induction family as [|chunk family IH]; simpl.
  - by intros _ ?%elem_of_nil.
  - intros (Hchunk & Hapart & Hrest)%NoDup_app [Hin|Hin]%elem_of_app.
    + rewrite filter_cons_True by done. simpl. f_equal.
      rewrite filter_none; [done|].
      intros chunk' Hchunk' Hi. apply (Hapart i Hin).
      apply list_elem_of_join. eauto.
    + rewrite filter_cons_False; [by apply IH|].
      intros Hi. by apply (Hapart i Hi).
Qed.

(** The positions of [0, n) that lie in a duplicate-free, in-range chunk are
    the chunk itself, rearranged. *)
Lemma filter_seq_chunk (n : nat) (chunk : list nat) :
  NoDup chunk → Forall (λ i, i < n) chunk →
  filter (λ i, i ∈ chunk) (seq 0 n) ≡ₚ chunk.
Proof.
  intros Hnodup Hrange. apply NoDup_Permutation; [|done|].
  - apply NoDup_filter, NoDup_seq.
  - intros i. rewrite list_elem_of_filter, elem_of_seq.
    rewrite Forall_forall in Hrange. split; [tauto|].
    intros Hi. specialize (Hrange i Hi). split; [done | lia].
Qed.

(** ** The fold size plan *)

Lemma size_plan_length (k n : nat) : 0 < k → length (size_plan k n) = k.
Proof.
  intros Hk. unfold size_plan. rewrite length_app, !length_replicate.
  pose proof (Nat.mod_upper_bound n k). lia.
Qed.

Lemma size_plan_sum (k n : nat) : 0 < k → sum_list (size_plan k n) = n.
Proof.
  intros Hk. unfold size_plan.
  rewrite sum_list_with_app, !sum_list_replicate.
  pose proof (Nat.mod_upper_bound n k).
  pose proof (Nat.div_mod_eq n k). nia.
Qed.

Lemma fold_sizes_plan (v : pyval) (k n : nat) :
  v = PyInt (Z.of_nat k) → 0 < k → fold_sizes v n = Ok (size_plan k n).
Proof.
  intros -> Hk. unfold fold_sizes, size_plan. simpl.
  rewrite (proj2 (Z.eqb_neq _ _)), (proj2 (Z.ltb_ge _ _)) by lia.
  rewrite <-Nat2Z.inj_div, <-Nat2Z.inj_mod, !Nat2Z.id.
  rewrite take_replicate, drop_replicate, fmap_replicate.
  pose proof (Nat.mod_upper_bound n k).
  by rewrite Nat.min_l by lia.
Qed.

(** ** Construction *)

(** What a successful construction tells about the arguments. *)
Lemma init_Ok_inv (a b c : pyval) (self : KFold) :
  __init__ a b c = Ok self →
  ∃ k : Z, a = PyInt k ∧ (2 ≤ k)%Z ∧ b = PyBool true ∧
    isinstance_Integral c = true ∧
    self = {| n_splits := a; shuffle := b; random_state := c |}.
Proof.
  unfold __init__.
  destruct a as [| [] |k|]; simpl; try done.
  destruct (Z.leb_spec k 1) as [|Hk]; [done|].
  destruct b as [|b| |]; simpl; try done.
  destruct c as [|c|c|]; simpl; try done; destruct b; simpl; try done.
  all: intros [= <-]; exists k; split_and!; (done || lia).
Qed.

(** Every guard of the constructor raises the same exception. *)
Lemma init_raises_ValueError (a b c : pyval) (e : exn) :
  __init__ a b c = Raise e → e = ValueError.
Proof.
  unfold __init__.
  destruct a as [| [] |k|]; simpl; try congruence.
  destruct (k <=? 1)%Z; [congruence|].
  destruct b as [| [] | |], c as [| [] | |]; simpl; congruence.
Qed.

Lemma constructed_configured (self : KFold) :
  constructed self → configured self.
Proof.
  intros (a & b & c & (k & -> & Hk & -> & Hc & ->)%init_Ok_inv).
  exists k, true. simpl. auto.
Qed.

Lemma configured_fold_count_pos (self : KFold) (k : nat) :
  configured self → fold_count self k → 0 < k.
Proof.
  intros (k' & _ & Hk' & Hle & _) Hk. unfold fold_count in Hk.
  rewrite Hk' in Hk. simplify_eq/=. lia.
Qed.

Lemma configured_n_splits (self : KFold) (k : nat) :
  configured self → fold_count self k → n_splits self = PyInt (Z.of_nat k).
Proof.
  intros (k' & _ & Hk' & _) Hk. unfold fold_count in Hk.
  rewrite Hk' in Hk. by simplify_eq/=.
Qed.

(** ** Seeding *)

Lemma seed_by_index_accepted `{R : NumpyRandom} (z : Z) (p : process) :
  (0 ≤ z ≤ 2 ^ 32 - 1)%Z →
  seed_by_index z p = (Ok (), set_np_random (init_by_int z) p).
Proof.
  intros Hz. unfold seed_by_index.
  by rewrite (proj2 (Z.ltb_ge _ _)), (proj2 (Z.ltb_ge _ _)) by lia.
Qed.

Lemma seed_by_index_refused `{R : NumpyRandom} (z : Z) (p : process) :
  ¬ (0 ≤ z ≤ 2 ^ 32 - 1)%Z → seed_by_index z p = (Raise ValueError, p).
Proof.
  intros Hz. unfold seed_by_index.
  destruct (Z.ltb_spec (2 ^ 32 - 1) z); [done|].
  by rewrite (proj2 (Z.ltb_lt _ _)) by lia.
Qed.

(** An accepted seed installs a state; any other seed raises and leaves
    the process as it was, with [ValueError] when the seed is an integer. *)
Lemma np_random_seed_accepted `{R : NumpyRandom} (seed : pyval) (p : process) :
  seed_accepted seed = true →
  ∃ g, np_random_seed seed p = (Ok (), set_np_random g p).
Proof.
  destruct seed as [|b|z|]; simpl; try done; intros Hseed.
  - by eauto.
  - rewrite seed_by_index_accepted; [by eauto | destruct b; simpl; lia].
  - rewrite seed_by_index_accepted; [by eauto | lia].
Qed.

Lemma np_random_seed_refused `{R : NumpyRandom} (seed : pyval) (p : process) :
  seed_accepted seed = false →
  ∃ e, np_random_seed seed p = (Raise e, p) ∧
       (isinstance_Integral seed = true → e = ValueError).
Proof.
  destruct seed as [|b|z|]; simpl; try done; intros Hseed.
  - exists ValueError. split; [|done]. apply seed_by_index_refused. lia.
  - by exists TypeError.
Qed.

(** ** Running the generators *)

Section runs.
Context {D : Type} `{Samples D} `{R : NumpyRandom}.

(** One round of the two loops for an in-range chunk. *)
Lemma fold_round (n : nat) (chunk : list nat) :
  Forall (λ i, i < n) chunk →
  ∃ mask, mask_assign (replicate n false) chunk = Ok mask ∧
    split_body (seq 0 n) mask = Ok (fold_pair n chunk).
Proof.
  intros Hrange.
  destruct (mask_assign_Ok (replicate n false) chunk)
    as (mask & Hrun & Hlen & Hset).
  { by rewrite length_replicate. }
  rewrite length_replicate in Hlen.
  assert (∀ j, j < n → mask !! j = Some (bool_decide (j ∈ chunk))) as Hmask.
  { intros j Hj. destruct (lookup_lt_is_Some_2 mask j) as [b Hb]; [lia|].
    rewrite Hb. f_equal. specialize (Hset j). rewrite Hb in Hset.
    rewrite lookup_replicate in Hset.
    destruct b; case_bool_decide; naive_solver. }
  exists mask. split; [done|]. unfold split_body, fold_pair.
  rewrite (bool_index_filter (λ i, i ∉ chunk) _ (negb <$> mask)); simpl.
  - rewrite (bool_index_filter (λ i, i ∈ chunk) _ mask); simpl; [done|..].
    + by rewrite length_seq.
    + intros j x [-> Hj]%lookup_seq. simpl. rewrite Hmask by done.
      case_bool_decide; naive_solver.
  - by rewrite length_fmap, length_seq.
  - intros j x [-> Hj]%lookup_seq. simpl.
    rewrite list_lookup_fmap, Hmask by done. simpl.
    case_bool_decide; naive_solver.
Qed.

(** The two loops together, over a base order within range: no round
    raises, and round [i] yields the pair of chunk [i]. *)
Lemma iter_folds_run (n : nat) (indices sizes : list nat) (current : nat) :
  Forall (λ i, i < n) indices →
  for_yield (split_body (seq 0 n))
    (iter_folds n indices sizes current).1
    (iter_folds n indices sizes current).2
  = (fold_pair n <$> chunks indices sizes current, None).
Proof.
  intros Hrange. revert current.
  induction sizes as [|size rest IH]; intros current; simpl; [done|].
  destruct (fold_round n (slice indices current (current + size)))
    as (mask & -> & Hbody).
  { apply Forall_forall. intros i Hi.
    eapply Forall_forall in Hrange; [done|].
    eapply elem_of_sublist; [done | apply slice_sublist]. }
  specialize (IH (current + size)).
  destruct (iter_folds n indices rest (current + size)) as [masks ending].
  simpl in *. by rewrite Hbody, IH.
Qed.

(** The base order of a configured partitioner: no raise, the attributes
    are untouched, and the order is a rearrangement of [arange(n)]. *)
Lemma base_order_run `{!NumpyRandomSpec R} (n : nat) (p : process) :
  configured (this p) → seed_usable (this p) →
  ∃ indices p1, base_order n p = (Ok indices, p1) ∧
    this p1 = this p ∧ indices ≡ₚ seq 0 n.
Proof.
  intros (k & b & _ & _ & Hb & _) Hseed. unfold base_order.
  unfold seed_usable in Hseed. rewrite Hb in *.
  destruct b; simpl in *; [|by eauto].
  destruct (np_random_seed_accepted _ p (Hseed eq_refl)) as [g ->].
  unfold np_random_permutation. simpl.
  pose proof (draw_permutation_perm n g) as Hperm.
  destruct (draw_permutation n g) as [perm g']. eauto.
Qed.

(** The whole of [split] for a configured partitioner with no more folds
    than samples. *)
Lemma split_run `{!NumpyRandomSpec R} (X : D) (p : process) (k : nat) :
  configured (this p) → seed_usable (this p) →
  fold_count (this p) k → k ≤ num_of_samples X →
  ∃ indices p1,
    base_order (num_of_samples X) p = (Ok indices, p1) ∧
    this p1 = this p ∧ indices ≡ₚ seq 0 (num_of_samples X) ∧
    split X p
    = ((fold_pair (num_of_samples X)
          <$> chunks indices (size_plan k (num_of_samples X)) 0, None), p1).
Proof.
  intros Hconf Hseed Hk Hle.
  destruct (base_order_run (num_of_samples X) p Hconf Hseed)
    as (indices & p1 & Hbase & Hthis & Hperm).
  exists indices, p1. split_and!; [done..|].
  pose proof (configured_fold_count_pos _ _ Hconf Hk) as Hpos.
  unfold split. rewrite Hk.
  rewrite (proj2 (Z.ltb_ge _ _)) by lia.
  unfold __iter_test_indices. rewrite Hbase, Hthis.
  rewrite (fold_sizes_plan _ k); [|by apply configured_n_splits|done].
  pose proof (iter_folds_run (num_of_samples X) indices
                (size_plan k (num_of_samples X)) 0) as Hrun.
  destruct (iter_folds _ _ _ _) as [masks ending]. simpl in Hrun.
  rewrite Hrun; [done|].
  rewrite Hperm. apply Forall_seq. lia.
Qed.

(** More folds than samples: the guard of [split] raises before anything
    else happens. *)
Lemma split_too_many_folds (X : D) (p : process) (k : nat) :
  fold_count (this p) k → num_of_samples X < k →
  split X p = (([], Some ValueError), p).
Proof.
  intros Hk Hlt. unfold split. rewrite Hk.
  by rewrite (proj2 (Z.ltb_lt _ _)) by lia.
Qed.

(** A configured partitioner that shuffles under a seed the generator
    refuses: nothing is yielded, whatever the dataset. *)
Lemma split_seed_refused (X : D) (p : process) (k : nat) :
  configured (this p) → fold_count (this p) k →
  truthy (shuffle (this p)) = true →
  seed_accepted (random_state (this p)) = false →
  split X p = (([], Some ValueError), p).
Proof.
  intros Hconf Hk Hshuffle Hseed.
  destruct (decide (num_of_samples X < k)) as [Hlt|Hge].
  { by apply (split_too_many_folds X p k). }
  unfold split. rewrite Hk. rewrite (proj2 (Z.ltb_ge _ _)) by lia.
  unfold __iter_test_indices, base_order. rewrite Hshuffle.
  destruct (np_random_seed_refused _ p Hseed) as (e & -> & He).
  rewrite He; [done|].
  destruct Hconf as (_ & _ & _ & _ & _ & [Hnone|Hint]); [|done].
  by rewrite Hnone in Hseed.
Qed.

Lemma seed_usable_cases (self : KFold) :
  seed_usable self ∨
  (truthy (shuffle self) = true ∧ seed_accepted (random_state self) = false).
Proof.
  unfold seed_usable.
  destruct (truthy (shuffle self)), (seed_accepted (random_state self));
    auto.
  all: by left.
Qed.

(** For a partitioner out of the constructor the seed is always put to
    use. *)
Lemma constructed_seed_usable (self : KFold) :
  constructed self →
  truthy (shuffle self) = true ∧
  (seed_usable self ↔ seed_accepted (random_state self) = true).
Proof.
  intros (a & b & c & (k & -> & _ & -> & _ & ->)%init_Ok_inv).
  unfold seed_usable. simpl. naive_solver.
Qed.

End runs.

(** ** The pairs of a rearranged base order *)

Section pairs.
Variables (n k : nat) (indices : list nat).
Hypothesis Hk : 0 < k.
Hypothesis Hperm : indices ≡ₚ seq 0 n.

Local Abbreviation folds := (chunks indices (size_plan k n) 0).
Local Abbreviation pairs := (fold_pair n <$> folds).

Lemma folds_join : mjoin folds = indices.
Proof.
  rewrite chunks_concat, size_plan_sum by done. simpl.
  apply take_ge. by rewrite Hperm, length_seq.
Qed.

Lemma folds_range :
  Forall (λ chunk, NoDup chunk ∧ Forall (λ i, i < n) chunk) folds.
Proof.
  eapply Forall_impl; [apply chunks_sublist|]. simpl. intros chunk Hsub.
  split.
  - apply (sublist_NoDup chunk indices); [|done]. rewrite Hperm. apply NoDup_seq.
  - apply Forall_forall. intros i Hi.
    apply (elem_of_sublist _ _ _ Hi) in Hsub.
    rewrite Hperm in Hsub. rename Hsub into Hi'. clear Hi. rename Hi' into Hi. apply elem_of_seq in Hi. lia.
Qed.

Lemma pairs_length : length pairs = k.
Proof.
  by rewrite length_fmap, chunks_length, size_plan_length.
Qed.

Lemma folds_holding (i : nat) :
  i < n → length (filter (λ chunk, i ∈ chunk) folds) = 1.
Proof.
  intros Hi. apply one_chunk_holds; rewrite folds_join, Hperm;
    [apply NoDup_seq | apply elem_of_seq; lia].
Qed.

Lemma pairs_test_count (i : nat) : i < n → test_count i pairs = 1.
Proof.
  intros Hi. unfold test_count. rewrite length_filter_fmap. simpl.
  rewrite (list_filter_iff _ (λ chunk, i ∈ chunk)); [by apply folds_holding|].
  intros chunk. rewrite list_elem_of_filter, elem_of_seq.
  split; [tauto|]. intros ?. split; [done | lia].
Qed.

Lemma pairs_train_count (i : nat) : i < n → train_count i pairs = k - 1.
Proof.
  intros Hi. unfold train_count. rewrite length_filter_fmap. simpl.
  rewrite (list_filter_iff _ (λ chunk, ¬ i ∈ chunk)).
  - pose proof (length_filter_complement (λ chunk, i ∈ chunk) folds) as Hsum.
    rewrite folds_holding in Hsum by done.
    rewrite chunks_length, size_plan_length in Hsum by done. lia.
  - intros chunk. rewrite list_elem_of_filter, elem_of_seq.
    split; [tauto|]. intros ?. split; [done | lia].
Qed.

Lemma pairs_test_sizes : (λ pr, length pr.2) <$> pairs = size_plan k n.
Proof.
  rewrite <-list_fmap_compose.
  trans (length <$> folds).
  - apply Forall_fmap_ext_1. eapply Forall_impl; [apply folds_range|].
    simpl. intros chunk [Hnodup Hrange].
    by rewrite filter_seq_chunk.
  - apply chunks_sizes.
    rewrite size_plan_sum, Hperm, length_seq by done. lia.
Qed.

End pairs.

(** ** Frame facts and items of a loop *)

Lemma for_yield_item {A B} (body : A → result B) (items : list A)
    (ending : option exn) (y : B) :
  y ∈ (for_yield body items ending).1 → ∃ x, x ∈ items ∧ body x = Ok y.
Proof.
  induction items as [|x items IH]; simpl.
  - by intros ?%elem_of_nil.
  - destruct (body x) as [y'|e] eqn:Hbody; simpl; [|by intros ?%elem_of_nil].
    destruct (for_yield body items ending) as [ys e]. simpl in *.
    intros [->|Hy]%elem_of_cons.
    + exists x. split; [left | done].
    + destruct (IH Hy) as (x' & Hx' & Hbody'). exists x'. split; [by right | done].
Qed.

Section frames.
Context {D : Type} `{Samples D} `{R : NumpyRandom}.

Lemma base_order_this (n : nat) (p : process) :
  this (base_order n p).2 = this p.
Proof.
  unfold base_order. destruct (truthy _); [|done].
  destruct (seed_accepted (random_state (this p))) eqn:Hseed.
  - destruct (np_random_seed_accepted _ p Hseed) as [g ->].
    unfold np_random_permutation. simpl. by destruct (draw_permutation _ _).
  - by destruct (np_random_seed_refused _ p Hseed) as (e & -> & _).
Qed.

Lemma iter_test_indices_this (n : nat) (p : process) :
  this (__iter_test_indices n p).2 = this p.
Proof.
  unfold __iter_test_indices.
  pose proof (base_order_this n p) as Hthis.
  destruct (base_order n p) as [[indices|e] p1]; simpl in *; [|done].
  by destruct (fold_sizes _ _).
Qed.

Lemma split_this (X : D) (p : process) : this (split X p).2 = this p.
Proof.
  unfold split. destruct (int_of _) as [k|e]; [|done].
  destruct (_ <? _)%Z; [done|].
  pose proof (iter_test_indices_this (num_of_samples X) p) as Hthis.
  by destruct (__iter_test_indices _ p) as [[masks ending] p1].
Qed.

(** With shuffling on and an integer seed, the base order does not depend
    on the random state the call starts from: an accepted seed gives the
    same order and the same state afterwards, a refused one the same
    exception. *)
Lemma base_order_seeded (n : nat) (p p' : process) (c : pyval) :
  this p = this p' → shuffle (this p) = PyBool true →
  random_state (this p) = c → isinstance_Integral c = true →
  base_order n p = base_order n p' ∨
  (base_order n p = (Raise ValueError, p) ∧
   base_order n p' = (Raise ValueError, p')).
Proof.
  intros Hthis Hshuffle Hseed Hint. unfold base_order.
  rewrite <-Hthis, Hshuffle, Hseed. simpl.
  destruct (seed_accepted c) eqn:Hacc.
  - left. unfold np_random_seed, seed_by_index, np_random_permutation,
      set_np_random.
    rewrite <-Hthis.
    destruct c as [|b|z|]; simpl in *; try done.
    + by destruct b.
    + by rewrite (proj2 (Z.ltb_ge _ _)), (proj2 (Z.ltb_ge _ _)) by lia.
  - right.
    destruct (np_random_seed_refused c p Hacc) as (e & -> & He).
    destruct (np_random_seed_refused c p' Hacc) as (e' & -> & He').
    by rewrite (He Hint), (He' Hint).
Qed.

End frames.

(** The toy generator meets the generator's contract. *)
Lemma rotating_spec : NumpyRandomSpec Demo.rotating.
Proof.
  intros n g. simpl. unfold rotate.
  rewrite Permutation_app_comm. by rewrite take_drop.
Qed.

(** * The claims *)

Section claims.
Context {D : Type} `{Samples D} `{R : NumpyRandom}.

(** C1.  For a partitioner that came out of the constructor, or any other
    whose attributes hold a documented configuration (shuffle on or off),
    whose seed is one the generator takes when shuffling is on (for a
    constructed partitioner: an integer from 0 to 2^32 - 1), and a dataset
    with at least as many samples as folds: iterating [split] to the end
    raises nothing and yields exactly [fold_count] pairs, the pair of
    round [i] being built from chunk [i] of the base order; every position
    below [n] is a test index of exactly one pair and a train index of
    exactly [fold_count - 1] pairs. *)
Theorem split_partitions_samples `{!NumpyRandomSpec R}
    (X : D) (p : process) (k : nat) :
  constructed (this p) ∨ configured (this p) →
  seed_usable (this p) →
  fold_count (this p) k →
  k ≤ num_of_samples X →
  ∃ pairs indices p1,
    split X p = ((pairs, None), p1) ∧
    base_order (num_of_samples X) p = (Ok indices, p1) ∧
    pairs = fold_pair (num_of_samples X)
              <$> chunks indices (size_plan k (num_of_samples X)) 0 ∧
    length pairs = k ∧
    ∀ i, i < num_of_samples X →
      test_count i pairs = 1 ∧ train_count i pairs = k - 1.
Proof.
  intros Hself Hseed Hk Hle.
  assert (configured (this p)) as Hconf.
  { destruct Hself; [by apply constructed_configured | done]. }
  pose proof (configured_fold_count_pos _ _ Hconf Hk) as Hpos.
  destruct (split_run X p k Hconf Hseed Hk Hle)
    as (indices & p1 & Hbase & _ & Hperm & Hsplit).
  eexists _, indices, p1. split_and!; [done.. | |].
  - by apply pairs_length.
  - intros i Hi. split.
    + by apply pairs_test_count.
    + by apply pairs_train_count.
Qed.

(** C2.  Every pair [split] yields, for any partitioner state and any
    dataset of [n] samples: the test indices are strictly ascending, the
    train indices are strictly ascending, no position is in both, and the
    positions in one or the other are exactly those below [n]. *)
Theorem split_pair_ascending_complementary
    (X : D) (p : process) (train test : list nat) :
  (train, test) ∈ (split X p).1.1 →
  ascending test ∧ ascending train ∧
  (∀ i, i ∈ train → i ∉ test) ∧
  (∀ i, i ∈ train ∨ i ∈ test ↔ i < num_of_samples X).
Proof.
  unfold split. destruct (int_of _) as [k|e]; [|by intros ?%elem_of_nil].
  destruct (_ <? _)%Z; [by intros ?%elem_of_nil|].
  destruct (__iter_test_indices _ p) as [[masks ending] p1]. simpl.
  intros (mask & _ & Hbody)%for_yield_item.
  unfold split_body in Hbody.
  apply bind_Ok in Hbody as (train' & Htrain & Hbody).
  apply bind_Ok in Hbody as (test' & Htest & [= -> ->]).
  destruct (bool_index_split _ _ _ _ Htest Htrain)
    as (Hsub_test & Hsub_train & Hperm).
  pose proof (ascending_seq 0 (num_of_samples X)) as Hsorted.
  pose proof (NoDup_seq 0 (num_of_samples X)) as Hnodup.
  rewrite <-Hperm in Hnodup. apply NoDup_app in Hnodup as (_ & Hapart & _).
  split_and!.
  - by eapply ascending_sublist.
  - by eapply ascending_sublist.
  - intros i Htr Hte. by apply (Hapart i).
  - intros i. pose proof (elem_of_seq 0 (num_of_samples X) i) as Hseq.
    rewrite <-Hperm, elem_of_app in Hseq. split.
    + intros Hi. assert (0 ≤ i < 0 + num_of_samples X) by (apply Hseq; tauto).
      lia.
    + intros Hi. apply or_comm, Hseq. lia.
Qed.


(** C4.  For a partitioner that came out of the constructor, iterating
    [split] ends in [ValueError] exactly when there are more folds than
    samples or the seed is not one the generator takes (an integer
    outside 0 .. 2^32 - 1); in that case nothing is yielded and the
    process is left as it was, and otherwise the iteration ends normally
    after exactly [fold_count] pairs. *)
Theorem split_raises_iff_too_many_folds `{!NumpyRandomSpec R}
    (X : D) (p : process) (k : nat) :
  constructed (this p) →
  fold_count (this p) k →
  ((split X p).1.2 = Some ValueError ↔
   num_of_samples X < k ∨ seed_accepted (random_state (this p)) = false) ∧
  (num_of_samples X < k ∨ seed_accepted (random_state (this p)) = false →
   split X p = (([], Some ValueError), p)) ∧
  (k ≤ num_of_samples X → seed_accepted (random_state (this p)) = true →
   ∃ pairs p1, split X p = ((pairs, None), p1) ∧ length pairs = k).
Proof.
  intros Hself Hk.
  pose proof (constructed_configured _ Hself) as Hconf.
  pose proof (configured_fold_count_pos _ _ Hconf Hk) as Hpos.
  destruct (constructed_seed_usable _ Hself) as [Hshuffle Husable].
  assert (num_of_samples X < k ∨ seed_accepted (random_state (this p)) = false →
          split X p = (([], Some ValueError), p)) as Hfail.
  { intros [Hlt|Hseed].
    - by apply (split_too_many_folds X p k).
    - by apply (split_seed_refused X p k). }
  assert (k ≤ num_of_samples X →
          seed_accepted (random_state (this p)) = true →
          ∃ pairs p1, split X p = ((pairs, None), p1) ∧ length pairs = k)
    as Hrun.
  { intros Hle Hseed%Husable.
    destruct (split_run X p k Hconf Hseed Hk Hle)
      as (indices & p1 & _ & _ & Hperm & Hsplit).
    eexists _, p1. split; [done | by apply pairs_length]. }
  split_and!; [|done..]. split.
  - intros Hraise.
    destruct (decide (num_of_samples X < k)) as [|Hge]; [by left|].
    destruct (seed_accepted (random_state (this p))) eqn:Hseed; [|by right].
    destruct Hrun as (pairs & p1 & Hsplit & _); [lia | done |].
    by rewrite Hsplit in Hraise.
  - intros Hcase. by rewrite Hfail.
Qed.

(** C9.  At the boundary [fold_count = n], for a partitioner that came
    out of the constructor with a seed the generator takes (an integer
    from 0 to 2^32 - 1), [split] raises nothing and yields exactly [n]
    pairs whose test sequences hold one index each. *)
Theorem split_one_sample_per_fold `{!NumpyRandomSpec R}
    (X : D) (p : process) :
  constructed (this p) →
  seed_accepted (random_state (this p)) = true →
  fold_count (this p) (num_of_samples X) →
  ∃ pairs p1,
    split X p = ((pairs, None), p1) ∧
    length pairs = num_of_samples X ∧
    Forall (λ pr, length pr.2 = 1) pairs.
Proof.
  intros Hself Hseed Hk.
  pose proof (constructed_configured _ Hself) as Hconf.
  apply (constructed_seed_usable _ Hself) in Hseed.
  pose proof (configured_fold_count_pos _ _ Hconf Hk) as Hpos.
  destruct (split_run X p _ Hconf Hseed Hk (Nat.le_refl _))
    as (indices & p1 & _ & _ & Hperm & Hsplit).
  eexists _, p1. split_and!; [done | by apply pairs_length |].
  assert (size_plan (num_of_samples X) (num_of_samples X)
          = replicate (num_of_samples X) 1) as Hplan.
  { unfold size_plan. rewrite Nat.Div0.mod_same, Nat.div_same by lia.
    simpl. by rewrite Nat.sub_0_r. }
  pose proof (pairs_test_sizes _ _ indices Hpos Hperm) as Hsizes.
  rewrite Hplan in Hsizes at 2.
  assert (Forall (λ size, size = 1) (replicate (num_of_samples X) 1))
    as Hones by (by apply Forall_replicate).
  rewrite <-Hsizes in Hones. by apply Forall_fmap in Hones.
Qed.

(** C7.  Shuffling off, whatever the seed attribute and the random state:
    on 10 samples with 5 folds the test sequences are [0,1], [2,3],
    [4,5], [6,7], [8,9], each with the ascending train sequence of the 8
    other positions; on 7 samples with 3 folds the fold sizes are
    [3,2,2] and the test sequences [0,1,2], [3,4], [5,6].  Nothing is
    raised and the process is left as it was. *)
Theorem split_unshuffled_scenarios
    (X10 X7 : D) (seed : pyval) (g : rng_state) :
  num_of_samples X10 = 10 →
  num_of_samples X7 = 7 →
  let p5 := {| this := {| n_splits := PyInt 5; shuffle := PyBool false;
                          random_state := seed |};
               np_random := g |} in
  let p3 := {| this := {| n_splits := PyInt 3; shuffle := PyBool false;
                          random_state := seed |};
               np_random := g |} in
  split X10 p5
  = (([ ([2; 3; 4; 5; 6; 7; 8; 9], [0; 1]);
        ([0; 1; 4; 5; 6; 7; 8; 9], [2; 3]);
        ([0; 1; 2; 3; 6; 7; 8; 9], [4; 5]);
        ([0; 1; 2; 3; 4; 5; 8; 9], [6; 7]);
        ([0; 1; 2; 3; 4; 5; 6; 7], [8; 9]) ], None), p5) ∧
  fold_sizes (PyInt 3) 7 = Ok [3; 2; 2] ∧
  split X7 p3
  = (([ ([3; 4; 5; 6], [0; 1; 2]);
        ([0; 1; 2; 5; 6], [3; 4]);
        ([0; 1; 2; 3; 4], [5; 6]) ], None), p3).
Proof.
  intros H10 H7 p5 p3. unfold split. rewrite H10, H7.
  split_and!; reflexivity.
Qed.

(** C8.  For a partitioner constructed with shuffling on and an integer
    seed, two invocations of [split] on datasets with the same number of
    samples yield the same pairs and end the same way, whatever the
    random state each invocation starts from; in particular an
    invocation made right after another repeats it. *)
Theorem split_reproducible_under_seed
    (a c : pyval) (self : KFold) (X1 X2 : D) (g1 g2 : rng_state) :
  __init__ a (PyBool true) c = Ok self →
  num_of_samples X1 = num_of_samples X2 →
  let p1 := {| this := self; np_random := g1 |} in
  let p2 := {| this := self; np_random := g2 |} in
  (split X1 p1).1 = (split X2 p2).1 ∧
  (split X1 (split X1 p1).2).1 = (split X1 p1).1.
Proof.
  intros (k & -> & Hk & _ & Hc & ->)%init_Ok_inv Hn p1 p2.
  assert (∀ (X X' : D) (q q' : process),
            num_of_samples X = num_of_samples X' →
            this q = this q' →
            this q = {| n_splits := PyInt k; shuffle := PyBool true;
                        random_state := c |} →
            (split X q).1 = (split X' q').1) as Hsame.
  { intros X X' q q' HX Hq Hself. unfold split, __iter_test_indices.
    rewrite <-HX, <-Hq, Hself. simpl.
    destruct (_ <? _)%Z; [done|].
    destruct (base_order_seeded (num_of_samples X) q q' c)
      as [->|[-> ->]];
      [done | by rewrite Hself | by rewrite Hself | done | | done].
    pose proof (base_order_this (num_of_samples X) q') as Hthis.
    destruct (base_order _ q') as [[indices|e] q1]; simpl in *; [|done].
    done. }
  split.
  - by apply Hsame.
  - apply Hsame; [done | by rewrite split_this | by rewrite split_this].
Qed.

(** C10.  On a partitioner that came out of the constructor,
    [get_n_splits] returns the fold count object that was passed to the
    constructor, raises nothing and leaves the whole process, the three
    attributes included, as it was; [split] leaves the three attributes
    as they were on any partitioner and any dataset, whether it raises or
    not. *)
Theorem get_n_splits_and_split_frame
    (a b c : pyval) (self : KFold) (g : rng_state) :
  __init__ a b c = Ok self →
  let p := {| this := self; np_random := g |} in
  get_n_splits p = (Ok a, p) ∧
  n_splits self = a ∧ shuffle self = b ∧ random_state self = c ∧
  ∀ (X : D) (q : process), this (split X q).2 = this q.
Proof.
  intros (k & -> & _ & -> & _ & ->)%init_Ok_inv p.
  split_and!; [done.. |]. intros X q. apply split_this.
Qed.

End claims.

(** C5.  The constructor rejects an absent seed whatever the other two
    arguments are: the fourth guard demands an integer before the fifth
    guard gets to look at the combination of seed and shuffle flag, so
    [KFold(n_splits, shuffle=False, random_state=None)] raises [ValueError]
    for every fold count, and the documented defaults do not construct. *)
Theorem init_rejects_absent_seed (a b : pyval) :
  __init__ a b PyNone = Raise ValueError.
Proof.
  unfold __init__.
  destruct a as [| [] |k|]; simpl; try done.
  destruct (k <=? 1)%Z; [done|]. by destruct b.
Qed.

(** C6.  Construction raises [ValueError], and so produces no partitioner,
    when the fold count is not an integer, when it is an integer below 2,
    when the shuffle flag is not a boolean, and when a seed is given while
    the shuffle flag is [False]; in particular for [n_splits=1],
    [n_splits="5"], [shuffle="yes"], and [random_state=3] with
    [shuffle=False]. *)
Theorem init_rejections :
  (∀ a b c, isinstance_Integral a = false → __init__ a b c = Raise ValueError) ∧
  (∀ a b c k, int_of a = Ok k → (k < 2)%Z → __init__ a b c = Raise ValueError) ∧
  (∀ a b c, isinstance_bool b = false → __init__ a b c = Raise ValueError) ∧
  (∀ a c, c ≠ PyNone → __init__ a (PyBool false) c = Raise ValueError) ∧
  (∀ b c, __init__ (PyInt 1) b c = Raise ValueError) ∧
  (∀ b c, __init__ (PyStr "5") b c = Raise ValueError) ∧
  (∀ c, __init__ (PyInt 5) (PyStr "yes") c = Raise ValueError) ∧
  __init__ (PyInt 5) (PyBool false) (PyInt 3) = Raise ValueError.
Proof.
  assert (∀ a b c, (∀ self, __init__ a b c ≠ Ok self) →
                   __init__ a b c = Raise ValueError) as Honly.
  { intros a b c Hnot. pose proof (init_raises_ValueError a b c) as Hexn.
    destruct (__init__ a b c) as [self|e]; [by destruct (Hnot self)|].
    by rewrite (Hexn e). }
  split_and!; try done.
  - intros a b c Ha. apply Honly. intros self (k & -> & _)%init_Ok_inv. done.
  - intros a b c k Ha Hk. apply Honly.
    intros self (k' & -> & ? & _)%init_Ok_inv. simplify_eq/=. lia.
  - intros a b c Hb. apply Honly.
    intros self (k' & _ & _ & -> & _)%init_Ok_inv. done.
  - intros a c Hc. apply Honly.
    intros self (k' & _ & _ & [=] & _)%init_Ok_inv.
Qed.

(** * Further properties of the code *)

(** ** More array facts *)

Lemma mask_assign_mask_of (n : nat) (chunk : list nat) :
  Forall (λ i, i < n) chunk →
  mask_assign (replicate n false) chunk = Ok (mask_of n chunk).
Proof.
  intros Hrange.
  destruct (mask_assign_Ok (replicate n false) chunk)
    as (mask & -> & Hlen & Hset).
  { by rewrite length_replicate. }
  rewrite length_replicate in Hlen. f_equal. apply list_eq. intros j.
  unfold mask_of. rewrite list_lookup_fmap.
  destruct (decide (j < n)) as [Hj|Hj].
  - rewrite lookup_seq_lt by done. simpl.
    destruct (lookup_lt_is_Some_2 mask j) as [b Hb]; [lia|].
    rewrite Hb. f_equal. specialize (Hset j). rewrite Hb in Hset.
    rewrite lookup_replicate in Hset.
    destruct b; case_bool_decide; naive_solver.
  - rewrite lookup_seq_ge by lia. apply lookup_ge_None. lia.
Qed.

Lemma mask_of_length (n : nat) (chunk : list nat) :
  length (mask_of n chunk) = n.
Proof. unfold mask_of. by rewrite length_fmap, length_seq. Qed.

Lemma mask_of_lookup (n i : nat) (chunk : list nat) :
  i < n → (mask_of n chunk !! i = Some true ↔ i ∈ chunk).
Proof.
  intros Hi. unfold mask_of.
  rewrite list_lookup_fmap, lookup_seq_lt by done. simpl.
  split.
  - intros [= Hb]. by apply bool_decide_eq_true in Hb.
  - intros Hin. f_equal. by apply bool_decide_eq_true.
Qed.

Lemma mask_of_selected (n : nat) (chunk : list nat) :
  NoDup chunk → Forall (λ i, i < n) chunk →
  selected (mask_of n chunk) = length chunk.
Proof.
  intros Hnodup Hrange. unfold selected, mask_of.
  rewrite length_filter_fmap.
  rewrite (list_filter_iff _ (λ i, i ∈ chunk)).
  - by rewrite filter_seq_chunk.
  - intros i. apply bool_decide_eq_true.
Qed.

(** An ascending, in-range chunk is read back unchanged. *)
Lemma filter_seq_ascending (n : nat) (chunk : list nat) :
  ascending chunk → NoDup chunk → Forall (λ i, i < n) chunk →
  filter (λ i, i ∈ chunk) (seq 0 n) = chunk.
Proof.
  intros Hsorted Hnodup Hrange.
  apply (StronglySorted_unique_strong lt).
  - intros; lia.
  - eapply ascending_sublist; [apply sublist_filter | apply ascending_seq].
  - done.
  - by apply filter_seq_chunk.
Qed.

Lemma slice_seq (n start size : nat) :
  start + size ≤ n → slice (seq 0 n) start (start + size) = seq start size.
Proof.
  intros Hle. rewrite slice_take_drop, drop_seq, take_seq. simpl.
  f_equal. lia.
Qed.

(** The chunk of round [j] starts where the earlier rounds stopped. *)
Lemma chunks_lookup (indices sizes : list nat) (current j : nat)
    (chunk : list nat) :
  chunks indices sizes current !! j = Some chunk →
  ∃ size, sizes !! j = Some size ∧
    chunk = slice indices (current + sum_list (take j sizes))
                  (current + sum_list (take j sizes) + size).
Proof.
  revert current j. induction sizes as [|size rest IH]; intros current j;
    simpl; [done|].
  destruct j as [|j]; simpl.
  - intros [= <-]. exists size. by rewrite Nat.add_0_r.
  - intros (size' & Hsize' & ->)%IH. exists size'. split; [done|].
    f_equal; lia.
Qed.

Lemma sum_list_take_le (l : list nat) (j : nat) :
  sum_list (take j l) ≤ sum_list l.
Proof.
  rewrite <-(take_drop j l) at 2. rewrite sum_list_with_app. lia.
Qed.

Lemma sum_list_take_lookup (l : list nat) (j x : nat) :
  l !! j = Some x → sum_list (take j l) + x ≤ sum_list l.
Proof.
  intros Hj. pose proof (sum_list_take_le l (S j)) as Hle.
  rewrite (take_S_r _ _ _ Hj), sum_list_with_app in Hle. simpl in Hle. lia.
Qed.

(** The members of the size plan. *)
Lemma size_plan_member (k n size : nat) :
  size ∈ size_plan k n →
  (size = S (n / k) ∧ 0 < n mod k) ∨ size = n / k.
Proof.
  unfold size_plan. intros [Hin|Hin]%elem_of_app.
  - apply elem_of_replicate in Hin as [-> Hr]. left. split; [done | lia].
  - apply elem_of_replicate in Hin as [-> _]. by right.
Qed.

(** ** The generators, once more *)

Section more_runs.
Context {D : Type} `{Samples D} `{R : NumpyRandom}.

Lemma iter_folds_masks (n : nat) (indices sizes : list nat) (current : nat) :
  Forall (λ i, i < n) indices →
  iter_folds n indices sizes current
  = (mask_of n <$> chunks indices sizes current, None).
Proof.
  intros Hrange. revert current.
  induction sizes as [|size rest IH]; intros current; simpl; [done|].
  rewrite mask_assign_mask_of, IH; [done|].
  apply Forall_forall. intros i Hi.
  eapply Forall_forall in Hrange; [done|].
  eapply elem_of_sublist; [done | apply slice_sublist].
Qed.

(** The mask generator on a given base order. *)
Lemma iter_test_indices_on (n k : nat) (p p1 : process) (indices : list nat) :
  base_order n p = (Ok indices, p1) → this p1 = this p →
  indices ≡ₚ seq 0 n → configured (this p) → fold_count (this p) k →
  __iter_test_indices n p
  = ((mask_of n <$> chunks indices (size_plan k n) 0, None), p1).
Proof.
  intros Hbase Hthis Hperm Hconf Hk. unfold __iter_test_indices.
  pose proof (configured_fold_count_pos _ _ Hconf Hk) as Hpos.
  rewrite Hbase, Hthis.
  rewrite (fold_sizes_plan _ k); [|by apply configured_n_splits | done].
  rewrite iter_folds_masks; [done|].
  rewrite Hperm. apply Forall_seq. lia.
Qed.

(** [split] on a given base order. *)
Lemma split_on (X : D) (k : nat) (p p1 : process) (indices : list nat) :
  base_order (num_of_samples X) p = (Ok indices, p1) → this p1 = this p →
  indices ≡ₚ seq 0 (num_of_samples X) →
  configured (this p) → fold_count (this p) k →
  k ≤ num_of_samples X →
  split X p
  = ((fold_pair (num_of_samples X)
        <$> chunks indices (size_plan k (num_of_samples X)) 0, None), p1).
Proof.
  intros Hbase Hthis Hperm Hconf Hk Hle. unfold split. rewrite Hk.
  pose proof (configured_fold_count_pos _ _ Hconf Hk) as Hpos.
  rewrite (proj2 (Z.ltb_ge _ _)) by lia.
  unfold __iter_test_indices. rewrite Hbase, Hthis.
  rewrite (fold_sizes_plan _ k); [|by apply configured_n_splits | done].
  pose proof (iter_folds_run (num_of_samples X) indices
                (size_plan k (num_of_samples X)) 0) as Hrun.
  destruct (iter_folds _ _ _ _) as [masks ending]. simpl in Hrun.
  rewrite Hrun; [done|].
  rewrite Hperm. apply Forall_seq. lia.
Qed.

End more_runs.

(** ** Construction *)

(** X1.  The constructor lets through exactly an integer fold count of at
    least 2 that is not a boolean, the shuffle flag [True] and an integer
    seed; it then returns the object whose attributes are the three
    arguments as passed.  On every other input it raises [ValueError] and
    nothing else. *)
Theorem init_accepts_exactly (a b c : pyval) :
  (accepted a b c →
   __init__ a b c = Ok {| n_splits := a; shuffle := b; random_state := c |}) ∧
  (¬ accepted a b c → __init__ a b c = Raise ValueError).
Proof.
  split.
  - intros ((k & -> & Hk) & -> & Hc). unfold __init__. simpl.
    rewrite (proj2 (Z.leb_gt _ _)) by lia. simpl.
    rewrite Hc. simpl. by destruct c.
  - intros Hnot. pose proof (init_raises_ValueError a b c) as Hexn.
    destruct (__init__ a b c) as [self|e] eqn:Hinit.
    + destruct Hnot.
      apply init_Ok_inv in Hinit as (k & -> & Hk & -> & Hc & _).
      unfold accepted. eauto.
    + by rewrite (Hexn e).
Qed.

(** X2.  Constructing again from the attributes of a constructed
    partitioner succeeds and gives back the same object. *)
Theorem init_from_attributes (self : KFold) :
  constructed self →
  __init__ (n_splits self) (shuffle self) (random_state self) = Ok self.
Proof.
  intros (a & b & c & Hinit).
  pose proof Hinit as (k & -> & _ & -> & _ & ->)%init_Ok_inv. done.
Qed.

(** ** The mask generator and [split] *)

Section more_properties.
Context {D : Type} `{Samples D} `{R : NumpyRandom}.

(** X3.  On the call [split] makes, with a fold count [k] of at most [n]
    samples, the fold sizes are [k] numbers that add up to [n], each
    [n / k] or [n / k + 1], and never growing from one fold to the next. *)
Theorem fold_sizes_balanced (X : D) (p : process) (k : nat) :
  configured (this p) → fold_count (this p) k → k ≤ num_of_samples X →
  let n := num_of_samples X in
  ∃ sizes,
    fold_sizes (n_splits (this p)) n = Ok sizes ∧
    length sizes = k ∧
    sum_list sizes = n ∧
    Forall (λ size, n / k ≤ size ≤ n / k + 1) sizes ∧
    ∀ i j si sj, i ≤ j → sizes !! i = Some si → sizes !! j = Some sj → sj ≤ si.
Proof.
  intros Hconf Hk Hle n.
  pose proof (configured_fold_count_pos _ _ Hconf Hk) as Hpos.
  exists (size_plan k n). split_and!.
  - apply fold_sizes_plan; [by apply configured_n_splits | done].
  - by apply size_plan_length.
  - by apply size_plan_sum.
  - apply Forall_forall. intros size [[-> _]| ->]%size_plan_member; lia.
  - intros i j si sj Hij Hi Hj.
    assert (si ∈ size_plan k n) as Hsi by (by eapply list_elem_of_lookup_2).
    assert (sj ∈ size_plan k n) as Hsj by (by eapply list_elem_of_lookup_2).
    apply size_plan_member in Hsi as [[-> _]| ->];
      apply size_plan_member in Hsj as [[-> _]| ->]; try lia.
    (* a small fold before a large one is impossible *)
    unfold size_plan in Hi, Hj.
    destruct (decide (i < n mod k)) as [Hlt|Hge].
    + rewrite lookup_app_l in Hi by (by rewrite length_replicate).
      apply lookup_replicate in Hi as [Hi _]. lia.
    + rewrite lookup_app_r in Hj by (rewrite length_replicate; lia).
      apply lookup_replicate in Hj as [Hj _]. lia.
Qed.

(** X4.  On the call [split] makes, for a configured partitioner with [k]
    folds whose seed the generator takes and a dataset of [n >= k]
    samples, the mask generator raises nothing and yields [k] masks of
    length [n]; the numbers of set entries follow the fold size plan, and
    every position below [n] is set in exactly one mask. *)
Theorem iter_test_indices_masks `{!NumpyRandomSpec R}
    (X : D) (k : nat) (p : process) :
  configured (this p) → seed_usable (this p) →
  fold_count (this p) k → k ≤ num_of_samples X →
  let n := num_of_samples X in
  ∃ masks p1,
    __iter_test_indices n p = ((masks, None), p1) ∧
    length masks = k ∧
    Forall (λ mask, length mask = n) masks ∧
    selected <$> masks
    = replicate (n mod k) (n / k + 1) ++ replicate (k - n mod k) (n / k) ∧
    ∀ i, i < n → length (filter (λ mask, mask !! i = Some true) masks) = 1.
Proof.
  intros Hconf Hseed Hk Hle n.
  pose proof (configured_fold_count_pos _ _ Hconf Hk) as Hpos.
  destruct (base_order_run n p Hconf Hseed)
    as (indices & p1 & Hbase & Hthis & Hperm).
  eexists _, p1. split_and!.
  - by eapply iter_test_indices_on.
  - by rewrite length_fmap, chunks_length, size_plan_length.
  - apply Forall_fmap, Forall_forall. intros chunk _. apply mask_of_length.
  - rewrite <-list_fmap_compose.
    trans (length <$> chunks indices (size_plan k n) 0).
    + apply Forall_fmap_ext_1.
      eapply Forall_impl; [by apply (folds_range n k indices)|].
      simpl. intros chunk [Hnodup Hrange]. by apply mask_of_selected.
    + rewrite chunks_sizes.
      * unfold size_plan. by rewrite Nat.add_1_r.
      * rewrite size_plan_sum, Hperm, length_seq by done. lia.
  - intros i Hi. rewrite length_filter_fmap.
    rewrite (list_filter_iff _ (λ chunk, i ∈ chunk)).
    + by apply folds_holding.
    + intros chunk. by apply mask_of_lookup.
Qed.

(** X6.  For a partitioner that came out of the constructor with a seed
    the generator takes, and a dataset with at least as many samples as
    folds, no fold is degenerate: every pair has at least one test index
    and at least one train index, and the two sequences together have
    [n] entries. *)
Theorem split_pairs_nonempty `{!NumpyRandomSpec R} (X : D) (p : process) (k : nat) :
  constructed (this p) → seed_accepted (random_state (this p)) = true →
  fold_count (this p) k → k ≤ num_of_samples X →
  ∃ pairs p1,
    split X p = ((pairs, None), p1) ∧
    Forall (λ pr, 1 ≤ length pr.1 ∧ 1 ≤ length pr.2 ∧
                  length pr.1 + length pr.2 = num_of_samples X) pairs.
Proof.
  intros Hself Hseed Hk Hle.
  pose proof (constructed_configured _ Hself) as Hconf.
  apply (constructed_seed_usable _ Hself) in Hseed.
  pose proof (configured_fold_count_pos _ _ Hconf Hk) as Hpos.
  assert (2 ≤ k) as Htwo.
  { destruct Hconf as (k' & _ & Hk' & Hge & _). unfold fold_count in Hk.
    rewrite Hk' in Hk. simplify_eq/=. lia. }
  destruct (split_run X p k Hconf Hseed Hk Hle)
    as (indices & p1 & _ & _ & Hperm & Hsplit).
  eexists _, p1. split; [done|].
  set (n := num_of_samples X) in *.
  pose proof (pairs_test_sizes n k indices Hpos Hperm) as Hsizes.
  apply Forall_lookup. intros j [train test] Hj. simpl.
  assert (length test ∈ size_plan k n) as Hsize.
  { rewrite <-Hsizes. apply list_elem_of_fmap.
    exists (train, test). split; [done|]. by eapply list_elem_of_lookup_2. }
  assert (length train + length test = n) as Hsum.
  { apply list_lookup_fmap_Some in Hj as (chunk & [= -> ->] & _).
    rewrite Nat.add_comm, length_filter_complement. apply length_seq. }
  pose proof (Nat.div_mod_eq n k) as Hdiv.
  assert (1 ≤ n / k) as Hq by (apply Nat.div_le_lower_bound; lia).
  apply size_plan_member in Hsize as [[Hsize Hr]|Hsize]; nia.
Qed.

(** X7.  Without shuffling the folds are consecutive: the test indices of
    a fold are the run of positions that starts where the earlier folds
    stopped, so that the test sequences joined in fold order are
    [0, 1, ..., n-1]; the process is left as it was. *)
Theorem split_unshuffled_consecutive (X : D) (p : process) (k : nat) :
  configured (this p) → shuffle (this p) = PyBool false →
  fold_count (this p) k → k ≤ num_of_samples X →
  ∃ pairs,
    split X p = ((pairs, None), p) ∧
    mjoin (pairs.*2) = seq 0 (num_of_samples X) ∧
    ∀ j test, pairs.*2 !! j = Some test →
      test = seq (sum_list (length <$> take j (pairs.*2))) (length test).
Proof.
  intros Hconf Hshuffle Hk Hle.
  pose proof (configured_fold_count_pos _ _ Hconf Hk) as Hpos.
  assert (base_order (num_of_samples X) p
          = (Ok (seq 0 (num_of_samples X)), p)) as Hbase.
  { unfold base_order. by rewrite Hshuffle. }
  eexists. split; [by apply (split_on X k p p (seq 0 (num_of_samples X)))|].
  assert ((fold_pair (num_of_samples X)
             <$> chunks (seq 0 (num_of_samples X))
                   (size_plan k (num_of_samples X)) 0).*2
          = chunks (seq 0 (num_of_samples X))
              (size_plan k (num_of_samples X)) 0) as ->.
  { rewrite <-list_fmap_compose. rewrite <-(list_fmap_id (chunks _ _ _)) at 2.
    apply Forall_fmap_ext_1.
    eapply Forall_impl; [apply chunks_sublist|]. simpl. intros chunk Hsub.
    apply filter_seq_ascending.
    - eapply ascending_sublist; [done | apply ascending_seq].
    - eapply sublist_NoDup; [apply NoDup_seq | done].
    - apply Forall_forall. intros i Hi.
      apply (elem_of_sublist _ _ _ Hi), elem_of_seq in Hsub. lia. }
  split.
  - by apply folds_join.
  - intros j test Hj.
    rewrite fmap_take, chunks_sizes
      by (rewrite size_plan_sum, length_seq by done; lia).
    apply chunks_lookup in Hj as (size & Hsize & ->). simpl.
    pose proof (sum_list_take_lookup _ _ _ Hsize) as Hfit.
    rewrite size_plan_sum in Hfit by done.
    rewrite slice_seq by done. by rewrite length_seq.
Qed.

(** X8.  With or without shuffling, when the seed is one the generator
    takes, the test indices of fold [j] are a rearrangement of the [j]-th
    consecutive chunk of the base order, and the chunks joined in fold
    order are the base order itself. *)
Theorem split_tests_are_chunks `{!NumpyRandomSpec R}
    (X : D) (p : process) (k : nat) :
  constructed (this p) ∨ configured (this p) →
  seed_usable (this p) →
  fold_count (this p) k → k ≤ num_of_samples X →
  ∃ pairs indices p1 folds,
    split X p = ((pairs, None), p1) ∧
    base_order (num_of_samples X) p = (Ok indices, p1) ∧
    mjoin folds = indices ∧
    Forall2 (λ pr chunk, pr.2 ≡ₚ chunk) pairs folds.
Proof.
  intros Hself Hseed Hk Hle.
  assert (configured (this p)) as Hconf.
  { destruct Hself; [by apply constructed_configured | done]. }
  pose proof (configured_fold_count_pos _ _ Hconf Hk) as Hpos.
  destruct (split_run X p k Hconf Hseed Hk Hle)
    as (indices & p1 & Hbase & _ & Hperm & Hsplit).
  eexists _, indices, p1, _. split_and!; [done | done | by apply folds_join |].
  apply Forall2_fmap_l, Forall_Forall2_diag.
  eapply Forall_impl; [by apply (folds_range _ k indices)|].
  simpl. intros chunk [Hnodup Hrange]. by apply filter_seq_chunk.
Qed.

(** X9.  When the shuffle flag is falsy, iterating [split] leaves the whole
    process, the global random state included, as it was, and what it
    yields does not depend on the random state. *)
Theorem split_unshuffled_leaves_random_state
    (X : D) (p : process) (g : rng_state) :
  truthy (shuffle (this p)) = false →
  (split X p).2 = p ∧
  (split X (set_np_random g p)).1 = (split X p).1.
Proof.
  intros Hshuffle. unfold split, __iter_test_indices, base_order. simpl.
  rewrite Hshuffle.
  destruct (int_of _) as [k|e]; [|done].
  destruct (_ <? _)%Z; [done|].
  change (this (set_np_random g p)) with (this p).
  destruct (fold_sizes _ _) as [sizes|e]; [|done].
  by destruct (iter_folds _ _ _ _).
Qed.

(** X10.  When a configured partitioner shuffles under an integer seed [z]
    from 0 to 2^32 - 1 and has no more folds than samples, iterating
    [split] replaces the global random state: what is left is the state
    reached by seeding with [z] and drawing one permutation of [n],
    whatever the state was before. *)
Theorem split_seeded_final_random_state `{!NumpyRandomSpec R}
    (X : D) (p : process) (k : nat) (z : Z) :
  configured (this p) → shuffle (this p) = PyBool true →
  int_of (random_state (this p)) = Ok z → (0 ≤ z ≤ 2 ^ 32 - 1)%Z →
  fold_count (this p) k → k ≤ num_of_samples X →
  (split X p).2
  = set_np_random (draw_permutation (num_of_samples X) (init_by_int z)).2 p.
Proof.
  intros Hconf Hshuffle Hseed Hz Hk Hle.
  assert (np_random_seed (random_state (this p)) p
          = (Ok (), set_np_random (init_by_int z) p)) as Hseeded.
  { destruct (random_state (this p)) as [|b|z'|]; simplify_eq/=;
      by apply seed_by_index_accepted. }
  assert (seed_usable (this p)) as Husable.
  { intros _. destruct (seed_accepted _) eqn:Hacc; [done|].
    destruct (np_random_seed_refused _ p Hacc) as (e & Hraise & _).
    by rewrite Hseeded in Hraise. }
  destruct (split_run X p k Hconf Husable Hk Hle)
    as (indices & p1 & Hbase & _ & _ & ->). simpl.
  unfold base_order in Hbase. rewrite Hshuffle, Hseeded in Hbase.
  unfold np_random_permutation in Hbase. simpl in Hbase.
  destruct (draw_permutation _ _) as [perm g']. by simplify_eq/=.
Qed.

(** X11.  For a partitioner that came out of the constructor, whenever
    iterating [split] ends without an exception the number of pairs it
    yielded is the number [get_n_splits] returns. *)
Theorem get_n_splits_counts_pairs `{!NumpyRandomSpec R} (X : D) (p : process) :
  constructed (this p) → (split X p).1.2 = None →
  ∃ v, get_n_splits p = (Ok v, p) ∧
       int_of v = Ok (Z.of_nat (length (split X p).1.1)).
Proof.
  intros Hself Hend.
  pose proof (constructed_configured _ Hself) as Hconf.
  exists (n_splits (this p)). split; [done|].
  pose proof Hconf as (k & b & Hk & Hge & Hb & _).
  assert (fold_count (this p) (Z.to_nat k)) as Hcount.
  { unfold fold_count. rewrite Hk. simpl. f_equal. lia. }
  destruct (decide (Z.to_nat k ≤ num_of_samples X)) as [Hle|Hgt]; last first.
  { rewrite (split_too_many_folds X p (Z.to_nat k)) in Hend by (done || lia).
    done. }
  destruct (seed_usable_cases (this p)) as [Hseed|[Hshuffle Hseed]]; last first.
  { by rewrite (split_seed_refused X p (Z.to_nat k)) in Hend. }
  destruct (split_run X p _ Hconf Hseed Hcount Hle)
    as (indices & p1 & _ & _ & _ & Hsplit).
  rewrite Hsplit. simpl.
  rewrite length_fmap, chunks_length, size_plan_length by lia. done.
Qed.

End more_properties.

(** * The claims at concrete inputs *)

Import Demo.

Lemma split_partitions_samples_witness :
  let X := rows 7 in
  let p := proc (kfold 3 true (PyInt 2)) 0 in
  (constructed (this p) ∨ configured (this p)) ∧
  seed_usable (this p) ∧
  fold_count (this p) 3 ∧
  3 ≤ num_of_samples X ∧
  ∃ pairs indices p1,
    split X p = ((pairs, None), p1) ∧
    base_order (num_of_samples X) p = (Ok indices, p1) ∧
    pairs = fold_pair (num_of_samples X)
              <$> chunks indices (size_plan 3 (num_of_samples X)) 0 ∧
    length pairs = 3 ∧
    ∀ i, i < num_of_samples X →
      test_count i pairs = 1 ∧ train_count i pairs = 3 - 1.
Proof.
  intros X p.
  assert (constructed (this p) ∨ configured (this p)) as Hself.
  { left. exists (PyInt 3), (PyBool true), (PyInt 2). reflexivity. }
  assert (seed_usable (this p)) as Hseed by (intros _; reflexivity).
  assert (fold_count (this p) 3) as Hk by reflexivity.
  assert (3 ≤ num_of_samples X) as Hle by (vm_compute; lia).
  split; [done|]. split; [done|]. split; [done|]. split; [done|].
  exact (split_partitions_samples (NumpyRandomSpec0 := rotating_spec)
           X p 3 Hself Hseed Hk Hle).
Defined.

(** A seed the constructor lets through and the generator refuses:
    [KFold(3, True, -1)] on 7 rows has no more folds than samples, and
    iterating [split] raises [ValueError] before any pair. *)
Lemma split_partitions_samples_counterexample :
  let X := rows 7 in
  let p := proc (kfold 3 true (PyInt (-1))) 40 in
  __init__ (PyInt 3) (PyBool true) (PyInt (-1)) = Ok (this p) ∧
  fold_count (this p) 3 ∧
  3 ≤ num_of_samples X ∧
  split X p = (([], Some ValueError), p) ∧
  ¬ ∃ pairs p1, split X p = ((pairs, None), p1) ∧ length pairs = 3.
Proof.
  intros X p.
  assert (split X p = (([], Some ValueError), p)) as Hsplit by reflexivity.
  split_and!; [reflexivity | reflexivity | vm_compute; lia | done |].
  intros (pairs & p1 & Hrun & _). rewrite Hsplit in Hrun. discriminate Hrun.
Qed.

Lemma split_pair_ascending_complementary_witness :
  let X := rows 7 in
  let p := proc (kfold 3 true (PyInt 2)) 0 in
  let train := [0; 1; 5; 6] in
  let test := [2; 3; 4] in
  (train, test) ∈ (split X p).1.1 ∧
  ascending test ∧ ascending train ∧
  (∀ i, i ∈ train → i ∉ test) ∧
  (∀ i, i ∈ train ∨ i ∈ test ↔ i < num_of_samples X).
Proof.
  intros X p train test.
  assert ((train, test) ∈ (split X p).1.1) as Hin by (vm_compute; left).
  split; [done|].
  exact (split_pair_ascending_complementary X p train test Hin).
Defined.


Lemma split_raises_iff_too_many_folds_witness :
  let X := rows 5 in
  let p := proc (kfold 10 true (PyInt 0)) 4 in
  constructed (this p) ∧
  fold_count (this p) 10 ∧
  ((split X p).1.2 = Some ValueError ↔
   num_of_samples X < 10 ∨ seed_accepted (random_state (this p)) = false) ∧
  (num_of_samples X < 10 ∨ seed_accepted (random_state (this p)) = false →
   split X p = (([], Some ValueError), p)) ∧
  (10 ≤ num_of_samples X → seed_accepted (random_state (this p)) = true →
   ∃ pairs p1, split X p = ((pairs, None), p1) ∧ length pairs = 10).
Proof.
  intros X p.
  assert (constructed (this p)) as Hself.
  { exists (PyInt 10), (PyBool true), (PyInt 0). reflexivity. }
  assert (fold_count (this p) 10) as Hk by reflexivity.
  split; [done|]. split; [done|].
  exact (split_raises_iff_too_many_folds
           (NumpyRandomSpec0 := rotating_spec) X p 10 Hself Hk).
Defined.

(** [KFold(3, True, -1)] on 7 rows: iterating [split] ends in [ValueError]
    although there are no more folds than samples. *)
Lemma split_raises_iff_too_many_folds_counterexample :
  let X := rows 7 in
  let p := proc (kfold 3 true (PyInt (-1))) 40 in
  __init__ (PyInt 3) (PyBool true) (PyInt (-1)) = Ok (this p) ∧
  fold_count (this p) 3 ∧
  (split X p).1 = ([], Some ValueError) ∧
  ¬ ((split X p).1.2 = Some ValueError ↔ num_of_samples X < 3).
Proof.
  intros X p.
  split_and!; [reflexivity | reflexivity | reflexivity |].
  intros [Hraise _].
  assert (num_of_samples X < 3) as Hlt by (by apply Hraise).
  vm_compute in Hlt. lia.
Qed.

Lemma split_one_sample_per_fold_witness :
  let X := rows 3 in
  let p := proc (kfold 3 true (PyInt 1)) 0 in
  constructed (this p) ∧
  seed_accepted (random_state (this p)) = true ∧
  fold_count (this p) (num_of_samples X) ∧
  ∃ pairs p1,
    split X p = ((pairs, None), p1) ∧
    length pairs = num_of_samples X ∧
    Forall (λ pr, length pr.2 = 1) pairs.
Proof.
  intros X p.
  assert (constructed (this p)) as Hself.
  { exists (PyInt 3), (PyBool true), (PyInt 1). reflexivity. }
  assert (seed_accepted (random_state (this p)) = true) as Hseed
    by reflexivity.
  assert (fold_count (this p) (num_of_samples X)) as Hk by reflexivity.
  split; [done|]. split; [done|]. split; [done|].
  exact (split_one_sample_per_fold (NumpyRandomSpec0 := rotating_spec)
           X p Hself Hseed Hk).
Defined.

(** [KFold(3, True, -1)] on 3 rows, the boundary [fold_count = n]:
    iterating [split] raises [ValueError] and yields no pair. *)
Lemma split_one_sample_per_fold_counterexample :
  let X := rows 3 in
  let p := proc (kfold 3 true (PyInt (-1))) 40 in
  __init__ (PyInt 3) (PyBool true) (PyInt (-1)) = Ok (this p) ∧
  fold_count (this p) (num_of_samples X) ∧
  split X p = (([], Some ValueError), p) ∧
  ¬ ∃ pairs p1, split X p = ((pairs, None), p1) ∧
                  length pairs = num_of_samples X.
Proof.
  intros X p.
  assert (split X p = (([], Some ValueError), p)) as Hsplit by reflexivity.
  split_and!; [reflexivity | reflexivity | done |].
  intros (pairs & p1 & Hrun & _). rewrite Hsplit in Hrun. discriminate Hrun.
Qed.

Lemma split_unshuffled_scenarios_witness :
  let p5 := proc (kfold 5 false PyNone) 0 in
  let p3 := proc (kfold 3 false PyNone) 0 in
  num_of_samples (rows 10) = 10 ∧
  num_of_samples (rows 7) = 7 ∧
  split (rows 10) p5
  = (([ ([2; 3; 4; 5; 6; 7; 8; 9], [0; 1]);
        ([0; 1; 4; 5; 6; 7; 8; 9], [2; 3]);
        ([0; 1; 2; 3; 6; 7; 8; 9], [4; 5]);
        ([0; 1; 2; 3; 4; 5; 8; 9], [6; 7]);
        ([0; 1; 2; 3; 4; 5; 6; 7], [8; 9]) ], None), p5) ∧
  fold_sizes (PyInt 3) 7 = Ok [3; 2; 2] ∧
  split (rows 7) p3
  = (([ ([3; 4; 5; 6], [0; 1; 2]);
        ([0; 1; 2; 5; 6], [3; 4]);
        ([0; 1; 2; 3; 4], [5; 6]) ], None), p3).
Proof.
  intros p5 p3.
  assert (num_of_samples (rows 10) = 10) as H10 by reflexivity.
  assert (num_of_samples (rows 7) = 7) as H7 by reflexivity.
  split; [done|]. split; [done|].
  exact (split_unshuffled_scenarios (rows 10) (rows 7) PyNone 0 H10 H7).
Defined.

Lemma split_reproducible_under_seed_witness :
  let self := kfold 3 true (PyInt 2) in
  let X1 := rows 7 in
  let X2 : table := replicate 7 [1%Z; 2%Z] in
  __init__ (PyInt 3) (PyBool true) (PyInt 2) = Ok self ∧
  num_of_samples X1 = num_of_samples X2 ∧
  (split X1 (proc self 0)).1 = (split X2 (proc self 5)).1 ∧
  (split X1 (split X1 (proc self 0)).2).1 = (split X1 (proc self 0)).1.
Proof.
  intros self X1 X2.
  assert (__init__ (PyInt 3) (PyBool true) (PyInt 2) = Ok self) as Hinit
    by reflexivity.
  assert (num_of_samples X1 = num_of_samples X2) as Hn by reflexivity.
  split; [done|]. split; [done|].
  exact (split_reproducible_under_seed
           (PyInt 3) (PyInt 2) self X1 X2 0 5 Hinit Hn).
Defined.

Lemma get_n_splits_and_split_frame_witness :
  let self := kfold 5 true (PyInt 3) in
  let p := proc self 0 in
  __init__ (PyInt 5) (PyBool true) (PyInt 3) = Ok self ∧
  get_n_splits p = (Ok (PyInt 5), p) ∧
  n_splits self = PyInt 5 ∧ shuffle self = PyBool true ∧
  random_state self = PyInt 3 ∧
  ∀ (X : table) (q : process), this (split X q).2 = this q.
Proof.
  intros self p.
  assert (__init__ (PyInt 5) (PyBool true) (PyInt 3) = Ok self) as Hinit
    by reflexivity.
  split; [done|].
  exact (get_n_splits_and_split_frame (D := table)
           (PyInt 5) (PyBool true) (PyInt 3) self 0 Hinit).
Defined.

Lemma init_rejections_witness :
  isinstance_Integral (PyStr "5") = false ∧
  __init__ (PyStr "5") (PyBool false) PyNone = Raise ValueError ∧
  int_of (PyInt 1) = Ok 1%Z ∧ (1 < 2)%Z ∧
  __init__ (PyInt 1) (PyBool true) (PyInt 0) = Raise ValueError ∧
  isinstance_bool (PyStr "yes") = false ∧
  __init__ (PyInt 5) (PyStr "yes") (PyInt 0) = Raise ValueError ∧
  PyInt 3 ≠ PyNone ∧
  __init__ (PyInt 5) (PyBool false) (PyInt 3) = Raise ValueError.
Proof.
  assert (PyInt 3 ≠ PyNone) as Hne by discriminate.
  assert (1 < 2)%Z as Hlt by lia.
  pose proof init_rejections as (Hint & Hlow & Hbool & Hseed & _).
  exact (conj eq_refl
          (conj (Hint (PyStr "5") (PyBool false) PyNone eq_refl)
          (conj eq_refl
          (conj Hlt
          (conj (Hlow (PyInt 1) (PyBool true) (PyInt 0) 1%Z eq_refl Hlt)
          (conj eq_refl
          (conj (Hbool (PyInt 5) (PyStr "yes") (PyInt 0) eq_refl)
          (conj Hne (Hseed (PyInt 5) (PyInt 3) Hne))))))))).
Defined.

(** * The further properties at concrete inputs *)

Lemma init_accepts_exactly_witness :
  accepted (PyInt 5) (PyBool true) (PyInt 3) ∧
  __init__ (PyInt 5) (PyBool true) (PyInt 3) = Ok (kfold 5 true (PyInt 3)) ∧
  ¬ accepted (PyBool true) (PyBool true) (PyInt 3) ∧
  __init__ (PyBool true) (PyBool true) (PyInt 3) = Raise ValueError.
Proof.
  assert (accepted (PyInt 5) (PyBool true) (PyInt 3)) as Hyes.
  { split; [exists 5%Z; split; [reflexivity | lia] | split; reflexivity]. }
  assert (¬ accepted (PyBool true) (PyBool true) (PyInt 3)) as Hno.
  { intros [(k & Hk & _) _]. discriminate Hk. }
  exact (conj Hyes
          (conj (proj1 (init_accepts_exactly _ _ _) Hyes)
          (conj Hno (proj2 (init_accepts_exactly _ _ _) Hno)))).
Defined.

Lemma init_from_attributes_witness :
  let self := kfold 5 true (PyInt 3) in
  constructed self ∧
  __init__ (n_splits self) (shuffle self) (random_state self) = Ok self.
Proof.
  intros self.
  assert (constructed self) as Hself.
  { exists (PyInt 5), (PyBool true), (PyInt 3). reflexivity. }
  exact (conj Hself (init_from_attributes self Hself)).
Defined.

Lemma fold_sizes_balanced_witness :
  let X := rows 7 in
  let p := proc (kfold 3 true (PyInt 2)) 0 in
  configured (this p) ∧ fold_count (this p) 3 ∧ 3 ≤ num_of_samples X ∧
  ∃ sizes,
    fold_sizes (n_splits (this p)) 7 = Ok sizes ∧
    length sizes = 3 ∧
    sum_list sizes = 7 ∧
    Forall (λ size, 7 / 3 ≤ size ≤ 7 / 3 + 1) sizes ∧
    ∀ i j si sj, i ≤ j → sizes !! i = Some si → sizes !! j = Some sj → sj ≤ si.
Proof.
  intros X p.
  assert (configured (this p)) as Hconf.
  { exists 3%Z, true. simpl. split_and!; [done | lia | done | by right]. }
  assert (fold_count (this p) 3) as Hk by reflexivity.
  assert (3 ≤ num_of_samples X) as Hle by (vm_compute; lia).
  exact (conj Hconf (conj Hk (conj Hle
           (fold_sizes_balanced X p 3 Hconf Hk Hle)))).
Defined.

Lemma iter_test_indices_masks_witness :
  let X := rows 7 in
  let p := proc (kfold 3 true (PyInt 2)) 0 in
  configured (this p) ∧ seed_usable (this p) ∧
  fold_count (this p) 3 ∧ 3 ≤ num_of_samples X ∧
  ∃ masks p1,
    __iter_test_indices 7 p = ((masks, None), p1) ∧
    length masks = 3 ∧
    Forall (λ mask, length mask = 7) masks ∧
    selected <$> masks
    = replicate (7 mod 3) (7 / 3 + 1) ++ replicate (3 - 7 mod 3) (7 / 3) ∧
    ∀ i, i < 7 → length (filter (λ mask, mask !! i = Some true) masks) = 1.
Proof.
  intros X p.
  assert (configured (this p)) as Hconf.
  { exists 3%Z, true. simpl. split_and!; [done | lia | done | by right]. }
  assert (seed_usable (this p)) as Hseed by (intros _; reflexivity).
  assert (fold_count (this p) 3) as Hk by reflexivity.
  assert (3 ≤ num_of_samples X) as Hle by (vm_compute; lia).
  exact (conj Hconf (conj Hseed (conj Hk (conj Hle
           (iter_test_indices_masks (NumpyRandomSpec0 := rotating_spec)
              X 3 p Hconf Hseed Hk Hle))))).
Defined.


Lemma split_pairs_nonempty_witness :
  let X := rows 7 in
  let p := proc (kfold 3 true (PyInt 2)) 0 in
  constructed (this p) ∧ seed_accepted (random_state (this p)) = true ∧
  fold_count (this p) 3 ∧ 3 ≤ num_of_samples X ∧
  ∃ pairs p1,
    split X p = ((pairs, None), p1) ∧
    Forall (λ pr, 1 ≤ length pr.1 ∧ 1 ≤ length pr.2 ∧
                  length pr.1 + length pr.2 = num_of_samples X) pairs.
Proof.
  intros X p.
  assert (constructed (this p)) as Hself.
  { exists (PyInt 3), (PyBool true), (PyInt 2). reflexivity. }
  assert (seed_accepted (random_state (this p)) = true) as Hseed
    by reflexivity.
  assert (fold_count (this p) 3) as Hk by reflexivity.
  assert (3 ≤ num_of_samples X) as Hle by (vm_compute; lia).
  exact (conj Hself (conj Hseed (conj Hk (conj Hle
           (split_pairs_nonempty (NumpyRandomSpec0 := rotating_spec)
              X p 3 Hself Hseed Hk Hle))))).
Defined.

Lemma split_unshuffled_consecutive_witness :
  let X := rows 7 in
  let p := proc (kfold 3 false PyNone) 4 in
  configured (this p) ∧ shuffle (this p) = PyBool false ∧
  fold_count (this p) 3 ∧ 3 ≤ num_of_samples X ∧
  ∃ pairs,
    split X p = ((pairs, None), p) ∧
    mjoin (pairs.*2) = seq 0 (num_of_samples X) ∧
    ∀ j test, pairs.*2 !! j = Some test →
      test = seq (sum_list (length <$> take j (pairs.*2))) (length test).
Proof.
  intros X p.
  assert (configured (this p)) as Hconf.
  { exists 3%Z, false. simpl. split_and!; [done | lia | done | by left]. }
  assert (shuffle (this p) = PyBool false) as Hshuffle by reflexivity.
  assert (fold_count (this p) 3) as Hk by reflexivity.
  assert (3 ≤ num_of_samples X) as Hle by (vm_compute; lia).
  exact (conj Hconf (conj Hshuffle (conj Hk (conj Hle
           (split_unshuffled_consecutive X p 3 Hconf Hshuffle Hk Hle))))).
Defined.

Lemma split_tests_are_chunks_witness :
  let X := rows 7 in
  let p := proc (kfold 3 true (PyInt 2)) 0 in
  (constructed (this p) ∨ configured (this p)) ∧
  seed_usable (this p) ∧
  fold_count (this p) 3 ∧ 3 ≤ num_of_samples X ∧
  ∃ pairs indices p1 folds,
    split X p = ((pairs, None), p1) ∧
    base_order (num_of_samples X) p = (Ok indices, p1) ∧
    mjoin folds = indices ∧
    Forall2 (λ pr chunk, pr.2 ≡ₚ chunk) pairs folds.
Proof.
  intros X p.
  assert (constructed (this p) ∨ configured (this p)) as Hself.
  { left. exists (PyInt 3), (PyBool true), (PyInt 2). reflexivity. }
  assert (seed_usable (this p)) as Hseed by (intros _; reflexivity).
  assert (fold_count (this p) 3) as Hk by reflexivity.
  assert (3 ≤ num_of_samples X) as Hle by (vm_compute; lia).
  exact (conj Hself (conj Hseed (conj Hk (conj Hle
           (split_tests_are_chunks (NumpyRandomSpec0 := rotating_spec)
              X p 3 Hself Hseed Hk Hle))))).
Defined.

Lemma split_unshuffled_leaves_random_state_witness :
  let X := rows 7 in
  let p := proc (kfold 3 false PyNone) 4 in
  truthy (shuffle (this p)) = false ∧
  (split X p).2 = p ∧
  (split X (set_np_random 9 p)).1 = (split X p).1.
Proof.
  intros X p.
  assert (truthy (shuffle (this p)) = false) as Hshuffle by reflexivity.
  exact (conj Hshuffle (split_unshuffled_leaves_random_state X p 9 Hshuffle)).
Defined.

Lemma split_seeded_final_random_state_witness :
  let X := rows 7 in
  let p := proc (kfold 3 true (PyInt 2)) 40 in
  configured (this p) ∧ shuffle (this p) = PyBool true ∧
  int_of (random_state (this p)) = Ok 2%Z ∧ (0 ≤ 2 ≤ 2 ^ 32 - 1)%Z ∧
  fold_count (this p) 3 ∧ 3 ≤ num_of_samples X ∧
  (split X p).2
  = set_np_random (draw_permutation (num_of_samples X) (init_by_int 2%Z)).2 p.
Proof.
  intros X p.
  assert (configured (this p)) as Hconf.
  { exists 3%Z, true. simpl. split_and!; [done | lia | done | by right]. }
  assert (shuffle (this p) = PyBool true) as Hshuffle by reflexivity.
  assert (int_of (random_state (this p)) = Ok 2%Z) as Hseed by reflexivity.
  assert (0 ≤ 2 ≤ 2 ^ 32 - 1)%Z as Hz by lia.
  assert (fold_count (this p) 3) as Hk by reflexivity.
  assert (3 ≤ num_of_samples X) as Hle by (vm_compute; lia).
  exact (conj Hconf (conj Hshuffle (conj Hseed (conj Hz (conj Hk (conj Hle
           (split_seeded_final_random_state (NumpyRandomSpec0 := rotating_spec)
              X p 3 2%Z Hconf Hshuffle Hseed Hz Hk Hle))))))).
Defined.

Lemma get_n_splits_counts_pairs_witness :
  let X := rows 7 in
  let p := proc (kfold 3 true (PyInt 2)) 0 in
  constructed (this p) ∧ (split X p).1.2 = None ∧
  ∃ v, get_n_splits p = (Ok v, p) ∧
       int_of v = Ok (Z.of_nat (length (split X p).1.1)).
Proof.
  intros X p.
  assert (constructed (this p)) as Hself.
  { exists (PyInt 3), (PyBool true), (PyInt 2). reflexivity. }
  assert ((split X p).1.2 = None) as Hend by reflexivity.
  exact (conj Hself (conj Hend
           (get_n_splits_counts_pairs (NumpyRandomSpec0 := rotating_spec)
              X p Hself Hend))).
Defined.
